(** * Extraction-and-normalisation pipeline of the course and track scrapers

    A shallow embedding of [course_scraper.py] and [track_scraper.py].

    Conventions of the embedding
    - Python [str] is [string]; a character is read as a code point in 0..255.
      Text outside that range is not modelled.
    - Python [int] is [Z].
    - A decoded JSON value is [json]; Python's [None] and JSON's [null] are
      the same value [JNull].  Non-integral JSON numbers are not modelled.
    - A parsed HTML document (what [BeautifulSoup(html, 'html.parser')]
      returns) is a tree of [node]s: elements, text nodes, and the strings
      of a special class (comments, the content of scripts and styles, ...)
      with their class.
    - A computation that can raise is a [result]; [Raise e] is an exception
      that nothing has caught yet.
    - [json.loads] is a parameter of the development. *)

From Stdlib Require Import String Ascii List ZArith Lia Bool Permutation.
From Stdlib Require Import Numbers.DecimalString.
Import ListNotations.
Open Scope list_scope.
Open Scope string_scope.

Set Implicit Arguments.
Set Warnings "-register-all".

(* ================================================================== *)
(** * Python values used by the scrapers                               *)
(* ================================================================== *)

Module Py.

(** ** Exceptions and results *)

Inductive exn : Type :=
| JSONDecodeError
| AttributeError
| KeyError
| TypeError
| ValueError.

Inductive result (A : Type) : Type :=
| Ok (a : A)
| Raise (e : exn).

Arguments Ok {A} a.
Arguments Raise {A} e.

Definition bind {A B : Type} (m : result A) (k : A -> result B) : result B :=
  match m with
  | Ok a => k a
  | Raise e => Raise e
  end.

Definition exn_eqb (a b : exn) : bool :=
  match a, b with
  | JSONDecodeError, JSONDecodeError
  | AttributeError, AttributeError
  | KeyError, KeyError
  | TypeError, TypeError
  | ValueError, ValueError => true
  | _, _ => false
  end.

(** Whether [except (handled...):] catches [e]. *)
Definition caught (e : exn) (handled : list exn) : bool :=
  existsb (exn_eqb e) handled.

(** ** Characters *)

Definition code (c : ascii) : nat := nat_of_ascii c.

(** [\d] on the modelled range: the ten ASCII digits. *)
Definition is_digit (c : ascii) : bool :=
  ((48 <=? code c) && (code c <=? 57))%nat.

(** [str.isspace] on the modelled range. *)
Definition is_space (c : ascii) : bool :=
  let n := code c in
  (((9 <=? n) && (n <=? 13)) || ((28 <=? n) && (n <=? 32))
   || (n =? 133) || (n =? 160))%nat.

(** [str.lower] on one character of the modelled range. *)
Definition lower_char (c : ascii) : ascii :=
  let n := code c in
  if (((65 <=? n) && (n <=? 90))
      || ((192 <=? n) && (n <=? 222) && negb (n =? 215)))%nat
  then ascii_of_nat (n + 32) else c.

(** ** Strings *)

Fixpoint lower (s : string) : string :=
  match s with
  | "" => ""
  | String c s' => String (lower_char c) (lower s')
  end.

Fixpoint lstrip (s : string) : string :=
  match s with
  | "" => ""
  | String c s' => if is_space c then lstrip s' else s
  end.

Fixpoint rev_string (s acc : string) : string :=
  match s with
  | "" => acc
  | String c s' => rev_string s' (String c acc)
  end.

Definition rstrip (s : string) : string :=
  rev_string (lstrip (rev_string s "")) "".

(** [s.strip()] *)
Definition strip (s : string) : string := rstrip (lstrip s).

(** [needle in s] for two strings. *)
Fixpoint contains (needle s : string) : bool :=
  if prefix needle s then true
  else match s with
       | "" => false
       | String _ s' => contains needle s'
       end.

(** [re.compile(pat, re.IGNORECASE).search(s)] for a pattern that is a
    literal without metacharacters. *)
Definition search_ignorecase (pat s : string) : bool :=
  contains (lower pat) (lower s).

Fixpoint drop (n : nat) (s : string) : string :=
  match n, s with
  | O, _ => s
  | S n', String _ s' => drop n' s'
  | S _, "" => ""
  end.

(** [s.replace(old, new)] for a non-empty [old]: the occurrences of [old]
    are replaced from left to right, without overlap.  [fuel] bounds the
    number of characters still to be read. *)
Fixpoint replace_from (fuel : nat) (old new s : string) : string :=
  match fuel with
  | O => s
  | S fuel' =>
      match s with
      | "" => ""
      | String c s' =>
          if prefix old s
          then new ++ replace_from (fuel' - (String.length old - 1)) old new
                                   (drop (String.length old) s)
          else String c (replace_from fuel' old new s')
      end
  end.

(** [s.replace("", new)]: [new] before every character and at the end. *)
Fixpoint intersperse (new s : string) : string :=
  match s with
  | "" => new
  | String c s' => new ++ String c (intersperse new s')
  end.

Definition replace (old new s : string) : string :=
  match old with
  | "" => intersperse new s
  | _ => replace_from (String.length s) old new s
  end.

(** [sep.join(parts)] *)
Definition join (sep : string) (parts : list string) : string :=
  String.concat sep parts.

(** ** Integers and digits *)

Definition digit_value (c : ascii) : Z := Z.of_nat (code c - 48).

Fixpoint int_of_digits_from (acc : Z) (s : string) : Z :=
  match s with
  | "" => acc
  | String c s' => int_of_digits_from (10 * acc + digit_value c) s'
  end.

Fixpoint all_digits (s : string) : bool :=
  match s with
  | "" => true
  | String c s' => is_digit c && all_digits s'
  end.

(** The default of [sys.int_max_str_digits]. *)
Definition max_str_digits : nat := 4300.

(** [int(s)] for a string of the shape the scrapers pass to it: a run of
    digits.  The empty string raises [ValueError], and so does a run of
    more than [max_str_digits] digits. *)
Definition int_of_string (s : string) : result Z :=
  match s with
  | "" => Raise ValueError
  | _ =>
      if all_digits s then
        if (String.length s <=? max_str_digits)%nat
        then Ok (int_of_digits_from 0 s)
        else Raise ValueError
      else Raise ValueError
  end.

(** [str(z)] *)
Definition str_of_int (z : Z) : string :=
  NilZero.string_of_int (Z.to_int z).

(** [re.sub(r'\D', '', s)] *)
Fixpoint remove_non_digits (s : string) : string :=
  match s with
  | "" => ""
  | String c s' =>
      if is_digit c then String c (remove_non_digits s') else remove_non_digits s'
  end.

(** ** The regular expression [PT(\d+)H] *)

(** The longest run of digits at the head of [s], and what follows it. *)
Fixpoint span_digits (s : string) : string * string :=
  match s with
  | "" => ("", "")
  | String c s' =>
      if is_digit c
      then let (ds, rest) := span_digits s' in (String c ds, rest)
      else ("", s)
  end.

(** A match of [PT(\d+)H] starting at the head of [s]; the result is
    group 1.  [\d+] is greedy, and giving digits back cannot help, for
    the character that must follow is [H]. *)
Definition match_PTdH_here (s : string) : option string :=
  match s with
  | String "P" (String "T" r) =>
      match span_digits r with
      | ("", _) => None
      | (ds, String "H" _) => Some ds
      | _ => None
      end
  | _ => None
  end.

(** [re.search(r'PT(\d+)H', s)]: the leftmost match; the result is group 1. *)
Fixpoint search_PTdH (s : string) : option string :=
  match match_PTdH_here s with
  | Some g => Some g
  | None => match s with
            | "" => None
            | String _ s' => search_PTdH s'
            end
  end.

End Py.

Module PyNotations.
Notation "x <- m ;; k" := (Py.bind m (fun x => k))
  (at level 61, m at next level, right associativity).
End PyNotations.

(* ================================================================== *)
(** * Decoded JSON values                                              *)
(* ================================================================== *)

Module Json.
Import Py.

(** What [json.loads] returns: [None], a [bool], an [int], a [str], a [list]
    or a [dict] with string keys (kept in insertion order). *)
Inductive json : Type :=
| JNull
| JBool (b : bool)
| JInt (z : Z)
| JStr (s : string)
| JArr (items : list json)
| JObj (fields : list (string * json)).

Fixpoint lookup (k : string) (fields : list (string * json)) : option json :=
  match fields with
  | [] => None
  | (k', v) :: rest => if String.eqb k k' then Some v else lookup k rest
  end.

(** Truth value of a decoded value, as [if v:] tests it. *)
Definition truthy (v : json) : bool :=
  match v with
  | JNull => false
  | JBool b => b
  | JInt z => negb (Z.eqb z 0)
  | JStr s => negb (String.eqb s "")
  | JArr items => match items with [] => false | _ => true end
  | JObj fields => match fields with [] => false | _ => true end
  end.

(** [v.get(k, default)]: only a [dict] has the method. *)
Definition get_default (k : string) (default : json) (v : json) : result json :=
  match v with
  | JObj fields =>
      Ok (match lookup k fields with Some x => x | None => default end)
  | _ => Raise AttributeError
  end.

(** [v.get(k)] *)
Definition get (k : string) (v : json) : result json := get_default k JNull v.

(** [needle in v] for a string [needle]: a substring test on a [str],
    membership on a [list], key membership on a [dict]; the other values
    are not containers. *)
Definition str_in (needle : string) (v : json) : result bool :=
  match v with
  | JStr s => Ok (contains needle s)
  | JArr items =>
      Ok (existsb (fun x => match x with
                            | JStr s => String.eqb needle s
                            | _ => false
                            end) items)
  | JObj fields =>
      Ok (match lookup needle fields with Some _ => true | None => false end)
  | JNull | JBool _ | JInt _ => Raise TypeError
  end.

(** [v.replace(old, new)]: only a [str] has the method. *)
Definition str_replace (old new : string) (v : json) : result json :=
  match v with
  | JStr s => Ok (JStr (replace old new s))
  | _ => Raise AttributeError
  end.

(** ** [repr] and [str] *)

Definition hex_digit (n : nat) : ascii :=
  ascii_of_nat (if (n <? 10)%nat then 48 + n else 87 + n).

Definition is_printable (c : ascii) : bool :=
  let n := code c in
  (((32 <=? n) && (n <? 127))
   || ((161 <=? n) && negb (n =? 173)))%nat.

Definition repr_char (quote : ascii) (c : ascii) : string :=
  if Ascii.eqb c quote || Ascii.eqb c "\"%char then String "\" (String c "")
  else if Ascii.eqb c "009"%char then "\t"
  else if Ascii.eqb c "010"%char then "\n"
  else if Ascii.eqb c "013"%char then "\r"
  else if is_printable c then String c ""
  else String "\" (String "x" (String (hex_digit (code c / 16))
                                  (String (hex_digit (code c mod 16)) ""))).

Fixpoint repr_chars (quote : ascii) (s : string) : string :=
  match s with
  | "" => ""
  | String c s' => repr_char quote c ++ repr_chars quote s'
  end.

Definition apostrophe : ascii := "'"%char.
Definition double_quote : ascii := ascii_of_nat 34.

Definition repr_str (s : string) : string :=
  let quote :=
    if contains (String apostrophe "") s
       && negb (contains (String double_quote "") s)
    then double_quote else apostrophe in
  String quote (repr_chars quote s ++ String quote "").

Fixpoint repr (v : json) : string :=
  match v with
  | JNull => "None"
  | JBool true => "True"
  | JBool false => "False"
  | JInt z => str_of_int z
  | JStr s => repr_str s
  | JArr items => "[" ++ join ", " (map repr items) ++ "]"
  | JObj fields =>
      "{" ++ join ", " (map (fun kv => (repr_str (fst kv) ++ ": " ++ repr (snd kv))%string)
                            fields) ++ "}"
  end.

(** [str(v)], which an f-string applies to each value it formats. *)
Definition str (v : json) : string :=
  match v with
  | JStr s => s
  | _ => repr v
  end.

End Json.

(* ================================================================== *)
(** * Parsed HTML                                                      *)
(* ================================================================== *)

Module Html.
Import Py.

(** The classes of strings other than [NavigableString] itself.  The
    parser gives the class of the enclosing element to the text inside
    [script], [style], [template], [rt] and [rp]. *)
Inductive string_class : Type :=
| Comment
| CData
| Script
| Stylesheet
| TemplateString
| RubyTextString
| RubyParenthesisString
| Declaration.

(** [Text] is a plain [NavigableString]; [Special] is a string of one of
    the other classes. *)
Inductive node : Type :=
| Text (s : string)
| Special (c : string_class) (s : string)
| Tag (name : string) (attrs : list (string * string)) (children : list node).

Definition is_tag (n : node) : bool :=
  match n with Tag _ _ _ => true | _ => false end.

(** [n.name == name] *)
Definition named (name : string) (n : node) : bool :=
  match n with
  | Tag name' _ _ => String.eqb name' name
  | _ => false
  end.

Definition children (n : node) : list node :=
  match n with
  | Tag _ _ ks => ks
  | _ => []
  end.

Fixpoint attr_lookup (k : string) (attrs : list (string * string)) : option string :=
  match attrs with
  | [] => None
  | (k', v) :: rest => if String.eqb k k' then Some v else attr_lookup k rest
  end.

Definition attr (k : string) (n : node) : option string :=
  match n with
  | Tag _ attrs _ => attr_lookup k attrs
  | _ => None
  end.

(** An attribute filter with a string: the attribute is present and equal. *)
Definition attr_is (k v : string) (n : node) : bool :=
  match attr k n with
  | Some v' => String.eqb v' v
  | None => false
  end.

(** An attribute filter with [re.compile(pat, re.IGNORECASE)], [pat] a
    literal without white space or metacharacters.  For [class] the filter
    is tried on every class and on the classes joined by a space; such a
    pattern occurs there exactly when it occurs in the attribute as
    written. *)
Definition attr_search (k pat : string) (n : node) : bool :=
  match attr k n with
  | Some v => search_ignorecase pat v
  | None => false
  end.

(** A choice of classes of strings; [None] is the plain class. *)
Definition string_types : Type := option string_class -> bool.

(** [(NavigableString, CData)] *)
Definition default_string_types : string_types :=
  fun c => match c with
           | None | Some CData => true
           | _ => false
           end.

Definition string_class_eqb (a b : string_class) : bool :=
  match a, b with
  | Comment, Comment | CData, CData | Script, Script
  | Stylesheet, Stylesheet | TemplateString, TemplateString
  | RubyTextString, RubyTextString
  | RubyParenthesisString, RubyParenthesisString
  | Declaration, Declaration => true
  | _, _ => false
  end.

Definition only (k : string_class) : string_types :=
  fun c => match c with
           | Some c' => string_class_eqb c' k
           | None => false
           end.

(** [n.interesting_string_types]: an element that contains a special
    class of strings reads that class only; every other element, and a
    string, reads the plain strings and the [CData] sections. *)
Definition interesting_string_types (n : node) : string_types :=
  match n with
  | Tag name _ _ =>
      if String.eqb name "script" then only Script
      else if String.eqb name "style" then only Stylesheet
      else if String.eqb name "template" then only TemplateString
      else if String.eqb name "rt" then only RubyTextString
      else if String.eqb name "rp" then only RubyParenthesisString
      else default_string_types
  | _ => default_string_types
  end.

(** The strings of the classes [types] at and below [n], in document
    order. *)
Fixpoint strings_of_types (types : string_types) (n : node) : list string :=
  match n with
  | Text s => if types None then [s] else []
  | Special c s => if types (Some c) then [s] else []
  | Tag _ _ ks => flat_map (strings_of_types types) ks
  end.

(** What [n._all_strings()] yields. *)
Definition strings (n : node) : list string :=
  strings_of_types (interesting_string_types n) n.

(** [n.get_text()] *)
Definition get_text (n : node) : string := join "" (strings n).

Definition nonempty (s : string) : bool := negb (String.eqb s "").

(** [n.get_text(strip=True)]: every text node stripped, the empty ones
    dropped. *)
Definition get_text_strip (n : node) : string :=
  join "" (filter nonempty (map strip (strings n))).

(** [n.string] of a tag: the text of its only child, if it has exactly one
    and that one has a [string]; a string of any class is its own
    [string]. *)
Fixpoint string_of (n : node) : option string :=
  match n with
  | Text s => Some s
  | Special _ s => Some s
  | Tag _ _ [k] => string_of k
  | Tag _ _ _ => None
  end.

(** An element together with what the traversal methods read off its
    position: whether an [li] is among its ancestors ([find_parent('li')])
    and the siblings that follow it ([find_next_sibling]). *)
Record located : Type := Located {
  loc_node : node;
  loc_in_li : bool;
  loc_next_siblings : list node
}.

(** The element [n] and the elements below it, in document order. *)
Fixpoint walk (in_li : bool) (n : node) (after : list node) {struct n}
  : list located :=
  match n with
  | Text _ | Special _ _ => []
  | Tag name _ ks =>
      Located n in_li after
      :: (fix walk_list (l : list node) : list located :=
            match l with
            | [] => []
            | k :: l' =>
                (walk (in_li || String.eqb name "li") k l' ++ walk_list l')%list
            end) ks
  end.

Fixpoint walk_list (in_li : bool) (l : list node) : list located :=
  match l with
  | [] => []
  | k :: l' => (walk in_li k l' ++ walk_list in_li l')%list
  end.

(** [e.find_all(recursive=True)] with no filter: the elements below [e]. *)
Definition descendants (e : located) : list located :=
  match loc_node e with
  | Tag name _ ks => walk_list (loc_in_li e || String.eqb name "li") ks
  | _ => []
  end.

(** The document object is the root of the tree; it has no ancestors. *)
Definition soup_of (root : node) : located := Located root false [].

Definition find_all (p : node -> bool) (e : located) : list located :=
  filter (fun x => p (loc_node x)) (descendants e).

(** [e.find_all(..., recursive=False)]: among the children only. *)
Definition find_all_children (p : node -> bool) (n : node) : list node :=
  filter (fun k => is_tag k && p k) (children n).

(** The first element of [l] that satisfies [p], with the elements that
    come after it in document order (what [find_next] searches). *)
Fixpoint find_with_rest (p : node -> bool) (l : list located)
  : option (located * list located) :=
  match l with
  | [] => None
  | x :: l' => if p (loc_node x) then Some (x, l') else find_with_rest p l'
  end.

Definition find_first (p : node -> bool) (l : list located) : option located :=
  match find_with_rest p l with
  | Some (x, _) => Some x
  | None => None
  end.

(** [e.find(...)] *)
Definition find (p : node -> bool) (e : located) : option located :=
  find_first p (descendants e).

(** [e.find_next_sibling(...)] *)
Definition find_next_sibling (p : node -> bool) (e : located) : option node :=
  List.find (fun k => is_tag k && p k) (loc_next_siblings e).

End Html.

(* ================================================================== *)
(** * The CSV writer                                                   *)
(* ================================================================== *)

Module Csv.
Import Py Json.

(** A row handed to the writer is a list of values, one per column.  How
    the writer quotes and encodes them is outside the pipeline. *)
Definition row : Type := list json.
Definition table : Type := list row.

Definition of_int (o : option Z) : json :=
  match o with
  | Some z => JInt z
  | None => JNull
  end.

(** [DictWriter.writeheader]: the field names as a row. *)
Definition header (fieldnames : list string) : row := map JStr fieldnames.

Definition has_key (fieldnames : list string) (k : string) : bool :=
  existsb (String.eqb k) fieldnames.

(** [DictWriter.writerow(rowdict)]: a key that is no field name raises
    [ValueError]; the cells are looked up by field name, in the order of
    [fieldnames], a missing one being the empty string. *)
Definition writerow (fieldnames : list string) (rowdict : list (string * json))
  : result row :=
  if forallb (fun kv => has_key fieldnames (fst kv)) rowdict
  then Ok (map (fun k => match lookup k rowdict with
                         | Some v => v
                         | None => JStr ""
                         end) fieldnames)
  else Raise ValueError.

(** The columns of both exports. *)
Definition fieldnames : list string :=
  ["title"; "url"; "exercises"; "dialect"; "hours"; "kind"; "description";
   "detailed_description"; "skills"; "purpose"; "level"; "price"].

(** Writing the rows of [rowdicts] one after the other below [written]. *)
Fixpoint writerows (written : table) (rowdicts : list (list (string * json)))
  : result table :=
  match rowdicts with
  | [] => Ok written
  | d :: rest =>
      match writerow fieldnames d with
      | Ok r => writerows (written ++ [r])%list rest
      | Raise e => Raise e
      end
  end.

End Csv.

(* ================================================================== *)
(** * Locating a section, shared by both scrapers                      *)
(* ================================================================== *)

Module Sections.
Import Py Html.

Definition newline : string := String (ascii_of_nat 10) "".

Definition double_newline : string := newline ++ newline.

(** [soup.find('h2', string=re.compile(label, re.IGNORECASE))]: the filter
    is applied to the [string] of the heading. *)
Definition h2_with_string (label : string) (n : node) : bool :=
  named "h2" n &&
  match string_of n with
  | Some s => search_ignorecase label s
  | None => false
  end.

(** The heading of a section: by its text, else by its [id], else by its
    [class]; with the elements that follow it in the document. *)
Definition find_heading (label pat : string) (soup : located)
  : option (located * list located) :=
  let all := descendants soup in
  match find_with_rest (h2_with_string label) all with
  | Some r => Some r
  | None =>
      match find_with_rest (fun n => named "h2" n && attr_search "id" pat n) all with
      | Some r => Some r
      | None => find_with_rest (fun n => named "h2" n && attr_search "class" pat n) all
      end
  end.

Definition div_with_class (pat : string) (n : node) : bool :=
  named "div" n && attr_search "class" pat n.

(** The [script] elements of type [application/ld+json]. *)
Definition is_json_ld_script (n : node) : bool :=
  named "script" n && attr_is "type" "application/ld+json" n.

End Sections.

(* ================================================================== *)
(** * course_scraper.py                                                *)
(* ================================================================== *)

Module course_scraper.
Import Py Json Html Sections PyNotations.

(** The dictionary that [extract_course_data] builds and the main loop
    completes; its keys are fixed, so it is a record. *)
Record course_info : Type := CourseInfo {
  ci_type : json;
  ci_title : json;
  ci_description : json;
  ci_price : json;
  ci_currency : json;
  ci_courseWorkload_hours : option Z;
  ci_educationalLevel : json;
  ci_skills : list string;
  ci_detailed_description : string;
  ci_exercises_count : option Z;
  ci_source_url : option string
}.

(** Lines 44-48: [if workload:], then [re.search(r'PT(\d+)H', workload)] and
    [int(match.group(1))].  [re.search] raises [TypeError] on a value that
    is no string. *)
Definition workload_hours (workload : json) : result (option Z) :=
  if truthy workload then
    match workload with
    | JStr s =>
        match search_PTdH s with
        | Some g => h <- int_of_string g ;; Ok (Some h)
        | None => Ok None
        end
    | _ => Raise TypeError
    end
  else Ok None.

Definition extract_course_data (json_ld_data : json) : result course_info :=
  type_ <- get "@type" json_ld_data ;;
  title <- get "name" json_ld_data ;;
  description <- get "description" json_ld_data ;;
  educationalLevel <- get "educationalLevel" json_ld_data ;;
  offers <- get "offers" json_ld_data ;;
  price_currency <-
    (if truthy offers
     then price <- get "price" offers ;;
          currency <- get "priceCurrency" offers ;;
          Ok (price, currency)
     else Ok (JNull, JNull)) ;;
  workload <- get "timeRequired" json_ld_data ;;
  workload <-
    (if negb (truthy workload)
     then course_instances <- get "hasCourseInstance" json_ld_data ;;
          match course_instances with
          | JArr (first :: _) => get "courseWorkload" first
          | _ => Ok workload
          end
     else Ok workload) ;;
  hours <- workload_hours workload ;;
  Ok {| ci_type := type_;
        ci_title := title;
        ci_description := description;
        ci_price := fst price_currency;
        ci_currency := snd price_currency;
        ci_courseWorkload_hours := hours;
        ci_educationalLevel := educationalLevel;
        ci_skills := [];
        ci_detailed_description := "";
        ci_exercises_count := None;
        ci_source_url := None |}.

Definition extract_skills (soup : located) : list string :=
  match find_heading "Skills you will gain" "skillsSection" soup with
  | Some (_, following) =>
      match find_first (named "ul") following with
      | Some skills_list =>
          filter nonempty
                 (map (fun li => get_text_strip (loc_node li))
                      (find_all (named "li") skills_list))
      | None => []
      end
  | None => []
  end.

(** The lines one child of the region contributes.  A child that is a
    string has no name and has [get_text], so it takes the last branch. *)
Definition lines_of_child (child : node) : list string :=
  let text := get_text_strip child in
  let items := find_all (named "li") (soup_of child) in
  match child with
  | Text _ | Special _ _ => if nonempty text then [text] else []
  | Tag name _ _ =>
      if String.eqb name "h2" then ["## " ++ text]
      else if String.eqb name "h3" then ["### " ++ text]
      else if String.eqb name "p" then
        if nonempty text
           && negb ((0 <? List.length (find_all (named "img") (soup_of child)))%nat
                    && negb (nonempty text))
        then [text] else []
      else if String.eqb name "ul" then
        flat_map (fun li =>
                    let li_text := get_text_strip (loc_node li) in
                    if nonempty li_text then ["- " ++ li_text] else [])
                 items
      else if String.eqb name "ol" then
        flat_map (fun ili =>
                    let li_text := get_text_strip (loc_node (snd ili)) in
                    if nonempty li_text
                    then [str_of_int (Z.of_nat (fst ili)) ++ ". " ++ li_text]
                    else [])
                 (combine (seq 1 (List.length items)) items)
      else if nonempty text then [text] else []
  end.

Definition markdown_lines (element : node) : list string :=
  flat_map lines_of_child (children element).

Definition convert_html_to_markdown (element : node) : string :=
  join double_newline (markdown_lines element).

Definition extract_detailed_description (soup : located) : string :=
  match find_heading "Description" "description" soup with
  | Some (_, following) =>
      let content_section :=
        match find_first (div_with_class "content") following with
        | Some d => Some d
        | None => find_first (div_with_class "productDescriptionSection__content")
                             following
        end in
      match content_section with
      | Some section =>
          join double_newline
               (filter (fun md => nonempty (strip md))
                       (map (fun d => convert_html_to_markdown (loc_node d))
                            (find_all (div_with_class "course_information") section)))
      | None => ""
      end
  | None => ""
  end.

(** A label of the summary is a candidate when its lower-cased text names
    the coding challenges or the exercises. *)
Definition is_exercises_label (label_span : located) : bool :=
  let label_text := lower (get_text_strip (loc_node label_span)) in
  contains "coding challenges" label_text || contains "exercises" label_text.

Definition value_span_of (label_span : located) : option node :=
  find_next_sibling
    (fun n => named "span" n && attr_search "class" "productSummarySection__itemValue" n)
    label_span.

(** The body of the loop of [extract_exercises_count] over the labels still
    to be read: [int] raising [ValueError] goes on with the next label. *)
Fixpoint scan_summary_items (summary_items : list located) : result (option Z) :=
  match summary_items with
  | [] => Ok None
  | label_span :: rest =>
      if is_exercises_label label_span then
        match value_span_of label_span with
        | Some value_span =>
            let exercises_text := get_text_strip value_span in
            match int_of_string (remove_non_digits exercises_text) with
            | Ok exercises_count => Ok (Some exercises_count)
            | Raise e =>
                if caught e [ValueError; AttributeError]
                then scan_summary_items rest
                else Raise e
            end
        | None => scan_summary_items rest
        end
      else scan_summary_items rest
  end.

Definition summary_items_of (soup : located) : list located :=
  find_all (fun n => named "span" n
                     && attr_search "class" "productSummarySection__itemLabel" n)
           soup.

Definition extract_exercises_count (soup : located) : result (option Z) :=
  scan_summary_items (summary_items_of soup).

Section Pipeline.

(** [json.loads] on a string: the decoded value, or [JSONDecodeError]. *)
Variable json_loads : string -> result json.

(** [requests.get(url)], checked and parsed; [None] when the request
    fails. *)
Variable fetch : string -> option node.

(** [json.loads(script.string)]: a script without a [string] hands [None]
    to [json.loads], which raises [TypeError]. *)
Definition loads_script_string (script : node) : result json :=
  match string_of script with
  | Some s => json_loads s
  | None => Raise TypeError
  end.

(** [item.get('@type') == 'Course'] *)
Definition is_course (item : json) : result bool :=
  t <- get "@type" item ;;
  Ok (match t with
      | JStr s => String.eqb s "Course"
      | _ => false
      end).

(** [if item.get('@type') == 'Course': courses.append(extract_course_data(item))].
    [courses] is a list that the statement extends in place: the result is
    the list afterwards, and the exception that left the statement, if any. *)
Definition append_if_course (item : json) (courses : list course_info)
  : list course_info * option exn :=
  match is_course item with
  | Ok true =>
      match extract_course_data item with
      | Ok c => ((courses ++ [c])%list, None)
      | Raise e => (courses, Some e)
      end
  | Ok false => (courses, None)
  | Raise e => (courses, Some e)
  end.

Fixpoint append_courses (items : list json) (courses : list course_info)
  : list course_info * option exn :=
  match items with
  | [] => (courses, None)
  | item :: rest =>
      match append_if_course item courses with
      | (courses', None) => append_courses rest courses'
      | (courses', Some e) => (courses', Some e)
      end
  end.

(** The body of the [try] of [find_course_json_ld] for one script. *)
Definition try_script (script : node) (courses : list course_info)
  : list course_info * option exn :=
  match loads_script_string script with
  | Ok json_data =>
      match json_data with
      | JArr items => append_courses items courses
      | _ => append_if_course json_data courses
      end
  | Raise e => (courses, Some e)
  end.

(** The courses found so far and the diagnostics printed so far. *)
Record found : Type := Found {
  courses : list course_info;
  diagnostics : list exn
}.

Fixpoint scan_scripts (scripts : list located) (st : found) : result found :=
  match scripts with
  | [] => Ok st
  | script :: rest =>
      match try_script (loc_node script) (courses st) with
      | (courses', None) => scan_scripts rest (Found courses' (diagnostics st))
      | (courses', Some e) =>
          if caught e [JSONDecodeError; AttributeError]
          then scan_scripts rest (Found courses' (diagnostics st ++ [e])%list)
          else Raise e
      end
  end.

Definition find_course_json_ld (soup : located) : result found :=
  scan_scripts (find_all is_json_ld_script soup) (Found [] []).

(** Lines 219-224: the fields the main loop sets on one course. *)
Definition complete (url : string) (skills : list string) (detailed_desc : string)
           (exercises_count : option Z) (course : course_info) : course_info :=
  {| ci_type := ci_type course;
     ci_title := ci_title course;
     ci_description := ci_description course;
     ci_price := ci_price course;
     ci_currency := ci_currency course;
     ci_courseWorkload_hours := ci_courseWorkload_hours course;
     ci_educationalLevel := ci_educationalLevel course;
     ci_skills := skills;
     ci_detailed_description := detailed_desc;
     ci_exercises_count := exercises_count;
     ci_source_url := Some url |}.

(** Lines 211-224: the records one fetched document adds. *)
Definition records_of_document (url : string) (html : node)
  : result (list course_info) :=
  let soup := soup_of html in
  f <- find_course_json_ld soup ;;
  match courses f with
  | [] => Ok []
  | _ =>
      let skills := extract_skills soup in
      let detailed_desc := extract_detailed_description soup in
      exercises_count <- extract_exercises_count soup ;;
      Ok (map (complete url skills detailed_desc exercises_count) (courses f))
  end.

(** The loop over the URLs: a failed request skips the URL. *)
Fixpoint fetch_all (urls : list string) (all_courses : list course_info)
  : result (list course_info) :=
  match urls with
  | [] => Ok all_courses
  | url :: rest =>
      match fetch url with
      | Some html =>
          records <- records_of_document url html ;;
          fetch_all rest (all_courses ++ records)%list
      | None => fetch_all rest all_courses
      end
  end.

End Pipeline.

(** ** The export (lines 266-312) *)

Definition skills_text (course : course_info) : string :=
  match ci_skills course with
  | [] => ""
  | skills => join newline skills
  end.

Definition price_text (course : course_info) : string :=
  if truthy (ci_price course) && truthy (ci_currency course)
  then Json.str (ci_price course) ++ " " ++ Json.str (ci_currency course)
  else if truthy (ci_price course) then Json.str (ci_price course)
  else "".

Definition row_data (course : course_info) : list (string * json) :=
  [ ("title", ci_title course);
    ("url", match ci_source_url course with Some u => JStr u | None => JStr "" end);
    ("exercises", Csv.of_int (ci_exercises_count course));
    ("dialect", JStr "");
    ("hours", Csv.of_int (ci_courseWorkload_hours course));
    ("kind", JStr "Course");
    ("description", ci_description course);
    ("detailed_description", JStr (ci_detailed_description course));
    ("skills", JStr (skills_text course));
    ("purpose", JStr "");
    ("level", ci_educationalLevel course);
    ("price", JStr (price_text course)) ].

(** [None]: no file is created. *)
Definition export_csv (all_courses : list course_info) : result (option Csv.table) :=
  match all_courses with
  | [] => Ok None
  | _ =>
      t <- Csv.writerows [Csv.header Csv.fieldnames] (map row_data all_courses) ;;
      Ok (Some t)
  end.

End course_scraper.

(* ================================================================== *)
(** * track_scraper.py                                                 *)
(* ================================================================== *)

Module track_scraper.
Import Py Json Html Sections PyNotations.

Definition extract_skills (soup : located) : list string :=
  match find_heading "Skills you will gain" "skillsSection" soup with
  | Some (_, following) =>
      match find_first (named "ul") following with
      | Some skills_list =>
          filter nonempty
                 (map (fun li => get_text_strip (loc_node li))
                      (find_all (named "li") skills_list))
      | None => []
      end
  | None => []
  end.

(** [item in markdown_lines] *)
Definition mem (item : string) (lines : list string) : bool :=
  existsb (String.eqb item) lines.

(** [if item not in markdown_lines: markdown_lines.append(item)], for the
    items one after the other. *)
Fixpoint append_new (markdown_lines items : list string) : list string :=
  match items with
  | [] => markdown_lines
  | item :: rest =>
      append_new (if mem item markdown_lines then markdown_lines
                  else markdown_lines ++ [item])%list rest
  end.

(** The text of a list item with every [b] and [strong] below it wrapped,
    one replacement after the other. *)
Definition item_text (li : node) : string :=
  fold_left (fun li_text bold_elem =>
               let bold_text := get_text_strip (loc_node bold_elem) in
               replace bold_text ("**" ++ bold_text ++ "**") li_text)
            (find_all (fun n => named "b" n || named "strong" n) (soup_of li))
            (get_text_strip li).

(** [ul_items] and [ol_items]: a line for every [li] child with text;
    [marker i] is what precedes the text of the [i]-th child. *)
Definition list_items (marker : nat -> string) (child : node) : list string :=
  let lis := find_all_children (named "li") child in
  flat_map (fun ili =>
              if nonempty (get_text_strip (snd ili))
              then [marker (fst ili) ++ item_text (snd ili)]
              else [])
           (combine (seq 1 (List.length lis)) lis).

Definition has_descendant (name : string) (child : node) : bool :=
  match find (named name) (soup_of child) with
  | Some _ => true
  | None => false
  end.

(** The lines that one element of the region asks to add. *)
Definition candidate_lines (child : located) : list string :=
  let n := loc_node child in
  let text := get_text_strip n in
  if named "h2" n then (if nonempty text then ["## " ++ text] else [])
  else if named "h3" n then (if nonempty text then ["### " ++ text] else [])
  else if named "p" n then
    (if nonempty text && negb (has_descendant "picture" n)
        && negb (has_descendant "img" n)
     then [text] else [])
  else if named "ul" n && negb (loc_in_li child) then
    list_items (fun _ => "- ") n
  else if named "ol" n && negb (loc_in_li child) then
    list_items (fun i => str_of_int (Z.of_nat i) ++ ". ") n
  else [].

(** The loop over [element.find_all(recursive=True)]. *)
Definition collect_lines (element : located) : list string :=
  fold_left (fun markdown_lines child =>
               append_new markdown_lines (candidate_lines child))
            (descendants element) [].

(** Lines 132-138: the pass with the set [seen]. *)
Fixpoint unique_from (seen : list string) (lines : list string) : list string :=
  match lines with
  | [] => []
  | line :: rest =>
      if mem line seen then unique_from seen rest
      else line :: unique_from (line :: seen) rest
  end.

Definition unique_lines (element : located) : list string :=
  unique_from [] (collect_lines element).

Definition convert_html_to_markdown (element : located) : string :=
  join double_newline (unique_lines element).

Definition extract_detailed_description (soup : located) : string :=
  match find_heading "Description" "description" soup with
  | Some (_, following) =>
      let content_section :=
        match find_first (div_with_class "productDescriptionSection__content")
                         following with
        | Some d => Some d
        | None => find_first (div_with_class "content") following
        end in
      match content_section with
      | Some section => convert_html_to_markdown section
      | None => ""
      end
  | None => ""
  end.

(** The dictionary [track_info]; [ti_url] is set by [main]. *)
Record track_info : Type := TrackInfo {
  ti_name : json;
  ti_description : json;
  ti_detailed_description : string;
  ti_price : json;
  ti_hours : json;
  ti_level : json;
  ti_dialect : string;
  ti_purpose : string;
  ti_skills : list string;
  ti_course_urls : list json;
  ti_url : option string
}.

(** Lines 167-174 *)
Definition dialect_of (track_name : json) : result string :=
  mysql <- str_in "MySQL" track_name ;;
  if mysql then Ok "MySQL"
  else
    postgres <- str_in "PostgreSQL" track_name ;;
    if postgres then Ok "PostgreSQL"
    else
      sqlserver <- str_in "SQL Server" track_name ;;
      if sqlserver then Ok "SQL Server" else Ok "Standard SQL".

(** Line 177 *)
Definition purpose_of (track_name : json) : result string :=
  practice <- str_in "Practice" track_name ;;
  Ok (if practice then "practice" else "learn").

(** [for course in v]: the values a [for] loop reads from [v]. *)
Definition iterate (v : json) : result (list json) :=
  match v with
  | JArr items => Ok items
  | JObj fields => Ok (map (fun kv => JStr (fst kv)) fields)
  | JStr s => Ok (map (fun c => JStr (String c "")) (list_ascii_of_string s))
  | JNull | JBool _ | JInt _ => Raise TypeError
  end.

(** [v[k]] for a string [k] *)
Definition subscript (k : string) (v : json) : result json :=
  match v with
  | JObj fields =>
      match lookup k fields with
      | Some x => Ok x
      | None => Raise KeyError
      end
  | _ => Raise TypeError
  end.

(** Lines 193-196 *)
Fixpoint course_urls_of (parts : list json) : result (list json) :=
  match parts with
  | [] => Ok []
  | course :: rest =>
      has_url <- str_in "url" course ;;
      if has_url
      then u <- subscript "url" course ;;
           us <- course_urls_of rest ;;
           Ok (u :: us)
      else course_urls_of rest
  end.

Section Pipeline.

Variable json_loads : string -> result json.
Variable fetch : string -> option node.

(** Lines 157-198: what follows the choice of the script. *)
Definition track_info_of_script (soup : located) (script_tag : node)
  : result track_info :=
  json_data <- json_loads (get_text script_tag) ;;
  let skills := extract_skills soup in
  let detailed_description := extract_detailed_description soup in
  track_name <- get_default "name" (JStr "") json_data ;;
  dialect <- dialect_of track_name ;;
  purpose <- purpose_of track_name ;;
  description <- get_default "description" (JStr "") json_data ;;
  offers <- get_default "offers" (JObj []) json_data ;;
  price <- get_default "price" (JStr "") offers ;;
  time_required <- get_default "timeRequired" (JStr "") json_data ;;
  without_pt <- str_replace "PT" "" time_required ;;
  hours <- str_replace "H" "" without_pt ;;
  level <- get_default "educationalLevel" (JStr "") json_data ;;
  has_part <- str_in "hasPart" json_data ;;
  course_urls <-
    (if has_part
     then parts <- subscript "hasPart" json_data ;;
          items <- iterate parts ;;
          course_urls_of items
     else Ok []) ;;
  Ok {| ti_name := track_name;
        ti_description := description;
        ti_detailed_description := detailed_description;
        ti_price := price;
        ti_hours := hours;
        ti_level := level;
        ti_dialect := dialect;
        ti_purpose := purpose;
        ti_skills := skills;
        ti_course_urls := course_urls;
        ti_url := None |}.

Definition extract_track_info (html : node) : result (option track_info) :=
  let soup := soup_of html in
  let script_tags := find_all is_json_ld_script soup in
  if (List.length script_tags <? 2)%nat then Ok None
  else
    match nth_error script_tags 1 with
    | Some script_tag =>
        match track_info_of_script soup (loc_node script_tag) with
        | Ok info => Ok (Some info)
        | Raise e =>
            if caught e [JSONDecodeError; AttributeError; KeyError]
            then Ok None
            else Raise e
        end
    | None => Ok None
    end.

Definition with_url (url : string) (info : track_info) : track_info :=
  {| ti_name := ti_name info;
     ti_description := ti_description info;
     ti_detailed_description := ti_detailed_description info;
     ti_price := ti_price info;
     ti_hours := ti_hours info;
     ti_level := ti_level info;
     ti_dialect := ti_dialect info;
     ti_purpose := ti_purpose info;
     ti_skills := ti_skills info;
     ti_course_urls := ti_course_urls info;
     ti_url := Some url |}.

(** The loop of [main] over the URLs. *)
Fixpoint collect_tracks (urls : list string) (tracks_data : list track_info)
  : result (list track_info) :=
  match urls with
  | [] => Ok tracks_data
  | url :: rest =>
      match fetch url with
      | Some content =>
          r <- extract_track_info content ;;
          match r with
          | Some info => collect_tracks rest (tracks_data ++ [with_url url info])%list
          | None => collect_tracks rest tracks_data
          end
      | None => collect_tracks rest tracks_data
      end
  end.

End Pipeline.

Definition skills_str (track : track_info) : string :=
  match ti_skills track with
  | [] => ""
  | skills => join ", " skills
  end.

(** The dictionary [row]; [track['url']] raises [KeyError] on a track that
    [main] has not completed. *)
Definition row_of (track : track_info) : result (list (string * json)) :=
  match ti_url track with
  | Some url =>
      Ok [ ("title", ti_name track);
           ("url", JStr url);
           ("exercises", JStr "");
           ("dialect", JStr (ti_dialect track));
           ("hours", ti_hours track);
           ("kind", JStr "Track");
           ("description", ti_description track);
           ("detailed_description", JStr (ti_detailed_description track));
           ("skills", JStr (skills_str track));
           ("purpose", JStr (ti_purpose track));
           ("level", ti_level track);
           ("price", ti_price track) ]
  | None => Raise KeyError
  end.

Fixpoint write_tracks (written : Csv.table) (tracks_data : list track_info)
  : result Csv.table :=
  match tracks_data with
  | [] => Ok written
  | track :: rest =>
      d <- row_of track ;;
      r <- Csv.writerow Csv.fieldnames d ;;
      write_tracks (written ++ [r])%list rest
  end.

Definition save_tracks_to_csv (tracks_data : list track_info) : result Csv.table :=
  write_tracks [Csv.header Csv.fieldnames] tracks_data.

(** The end of [main]: the file is written only for a non-empty list. *)
Definition export_csv (tracks_data : list track_info) : result (option Csv.table) :=
  match tracks_data with
  | [] => Ok None
  | _ => t <- save_tracks_to_csv tracks_data ;; Ok (Some t)
  end.

End track_scraper.

(* ================================================================== *)
(** * The lists of URLs that the two scripts read                      *)
(* ================================================================== *)

Module inputs.
Import Py Json Html PyNotations.

(** [[item["url"] for item in items]] *)
Fixpoint urls_of_items (items : list json) : result (list json) :=
  match items with
  | [] => Ok []
  | item :: rest =>
      u <- track_scraper.subscript "url" item ;;
      us <- urls_of_items rest ;;
      Ok (u :: us)
  end.

(** course_scraper.py, line 12:
    [urls = [item["url"] for item in data.get("itemListElement", [])]],
    [data] being the decoded content of [courses.json]. *)
Definition urls (data : json) : result (list json) :=
  l <- get_default "itemListElement" (JArr []) data ;;
  items <- track_scraper.iterate l ;;
  urls_of_items items.

(** track_scraper.py, [read_track_urls]: the lines of the file, stripped,
    without those that are empty once stripped. *)
Definition read_track_urls (lines : list string) : list string :=
  map strip (filter (fun line => nonempty (strip line)) lines).

End inputs.

(* ================================================================== *)
(** * The vocabulary of the specification                              *)
(* ================================================================== *)

Module Spec.
Import Py Json Html Sections.

(** [p] occurs in [s]. *)
Definition Substring (p s : string) : Prop :=
  exists a b, s = a ++ p ++ b.

(** [ds] is a non-empty run of digits that stands between [PT] and [H]
    somewhere in [s]. *)
Definition Occurs_PTdH (ds s : string) : Prop :=
  exists pre post,
    s = pre ++ "PT" ++ ds ++ "H" ++ post /\ ds <> "" /\ all_digits ds = true.

(** The whole of [s] is [PT], digits and [H]. *)
Definition Is_PTdH (ds s : string) : Prop :=
  s = "PT" ++ ds ++ "H" /\ ds <> "" /\ all_digits ds = true.

(** [ds] is the run of digits of the leftmost [PT], digits, [H] of [s]:
    no such pattern starts before it. *)
Definition First_PTdH (ds s : string) : Prop :=
  exists pre post,
    s = pre ++ "PT" ++ ds ++ "H" ++ post /\ ds <> "" /\ all_digits ds = true /\
    forall pre' ds' post',
      s = pre' ++ "PT" ++ ds' ++ "H" ++ post' ->
      ds' <> "" -> all_digits ds' = true ->
      String.length pre <= String.length pre'.

(** What [int] gives for a non-empty run of digits. *)
Definition int_of_run (ds : string) : result Z :=
  if (String.length ds <=? max_str_digits)%nat
  then Ok (int_of_digits_from 0 ds)
  else Raise ValueError.

(** Deduplication by exact text match, keeping the first occurrence. *)
Fixpoint dedup_keep_first (lines : list string) : list string :=
  match lines with
  | [] => []
  | line :: rest =>
      line :: filter (fun l => negb (String.eqb l line)) (dedup_keep_first rest)
  end.

(** A label of the summary is a candidate: its lower-cased text contains
    one of the two phrases. *)
Definition Candidate (label_span : located) : Prop :=
  let label_text := lower (get_text_strip (loc_node label_span)) in
  Substring "coding challenges" label_text \/ Substring "exercises" label_text.

(** The candidate yields [n]: the text of the value next to it, with every
    character that is no digit removed, parses as an integer (it is not
    empty and has no more digits than [int] accepts) and reads as [n]. *)
Definition Yields (label_span : located) (n : Z) : Prop :=
  exists value_span,
    course_scraper.value_span_of label_span = Some value_span /\
    let digits := remove_non_digits (get_text_strip value_span) in
    digits <> "" /\ (String.length digits <= max_str_digits)%nat /\
    n = int_of_digits_from 0 digits.

(** The declared type of a decoded block is [type_]. *)
Definition declared_type_is (type_ : string) (block : result json) : bool :=
  match block with
  | Ok (JObj fields) =>
      match lookup "@type" fields with
      | Some (JStr t) => String.eqb t type_
      | _ => false
      end
  | _ => false
  end.

(** The second block of the document whose declared type is [type_]. *)
Definition second_matching_block (json_loads : string -> result json)
           (type_ : string) (html : node) : option (result json) :=
  nth_error
    (filter (declared_type_is type_)
            (map (fun script => json_loads (get_text (loc_node script)))
                 (find_all is_json_ld_script (soup_of html))))
    1.

(** The cell of a row under a column of the export. *)
Fixpoint index_of (column : string) (columns : list string) : option nat :=
  match columns with
  | [] => None
  | c :: rest =>
      if String.eqb column c then Some 0
      else match index_of column rest with
           | Some i => Some (S i)
           | None => None
           end
  end.

Definition cell (column : string) (r : Csv.row) : option json :=
  match index_of column Csv.fieldnames with
  | Some i => nth_error r i
  | None => None
  end.

(** The twelve columns, in the order of the table. *)
Definition columns : list string :=
  ["title"; "url"; "exercises"; "dialect"; "hours"; "kind"; "description";
   "detailed_description"; "skills"; "purpose"; "level"; "price"].

(** The cells of the row of a Course record, column by column. *)
Definition course_cells (c : course_scraper.course_info) : Csv.row :=
  [ course_scraper.ci_title c;
    JStr (match course_scraper.ci_source_url c with Some u => u | None => "" end);
    Csv.of_int (course_scraper.ci_exercises_count c);
    JStr "";
    Csv.of_int (course_scraper.ci_courseWorkload_hours c);
    JStr "Course";
    course_scraper.ci_description c;
    JStr (course_scraper.ci_detailed_description c);
    JStr (join newline (course_scraper.ci_skills c));
    JStr "";
    course_scraper.ci_educationalLevel c;
    JStr (course_scraper.price_text c) ].

(** The cells of the row of a Track record, column by column. *)
Definition track_cells (t : track_scraper.track_info) : Csv.row :=
  [ track_scraper.ti_name t;
    JStr (match track_scraper.ti_url t with Some u => u | None => "" end);
    JStr "";
    JStr (track_scraper.ti_dialect t);
    track_scraper.ti_hours t;
    JStr "Track";
    track_scraper.ti_description t;
    JStr (track_scraper.ti_detailed_description t);
    JStr (join ", " (track_scraper.ti_skills t));
    JStr (track_scraper.ti_purpose t);
    track_scraper.ti_level t;
    track_scraper.ti_price t ].

(** [main] has set the URL of the track. *)
Definition has_url (t : track_scraper.track_info) : Prop :=
  track_scraper.ti_url t <> None.

End Spec.

(* ================================================================== *)
(** * Sample documents                                                 *)
(* ================================================================== *)

Module Samples.
Import Py Json Html Sections.

Definition quoted (s : string) : string :=
  String double_quote (s ++ String double_quote "").

(** The JSON text of a value whose strings need no escape, as
    [json.dumps] writes it. *)
Fixpoint json_text (v : json) : string :=
  match v with
  | JNull => "null"
  | JBool true => "true"
  | JBool false => "false"
  | JInt z => str_of_int z
  | JStr s => quoted s
  | JArr items => "[" ++ join ", " (map json_text items) ++ "]"
  | JObj fields =>
      "{" ++ join ", " (map (fun kv => (quoted (fst kv) ++ ": " ++ json_text (snd kv))%string)
                            fields) ++ "}"
  end.

(** A decoder that agrees with [json.loads] on the texts of [values], and
    on texts that are no JSON at all. *)
Fixpoint decode (values : list json) (text : string) : result json :=
  match values with
  | [] => Raise JSONDecodeError
  | v :: rest => if String.eqb (json_text v) text then Ok v else decode rest text
  end.

Definition json_ld (text : string) : node :=
  Tag "script" [("type", "application/ld+json")] [Special Script text].

Definition page (head body : list node) : node :=
  Tag "[document]" [] [Tag "html" [] [Tag "head" [] head; Tag "body" [] body]].

Definition p (kids : list node) : node := Tag "p" [] kids.

(** ** A track page *)

Definition organization : json :=
  JObj [("@type", JStr "Organization"); ("name", JStr "Academy")].

Definition mysql_track : json :=
  JObj [("@type", JStr "Course");
        ("name", JStr "Advanced MySQL Practice Track");
        ("description", JStr "Practice MySQL");
        ("timeRequired", JStr "PT40H");
        ("hasPart", JArr [JObj [("url", JStr "https://example.com/c1")]])].

Definition track_page : node :=
  page [json_ld (json_text organization); json_ld (json_text mysql_track)] [].

Definition track_loads : string -> result json :=
  decode [organization; mysql_track].

(** ** A course page with two course objects in one block *)

Definition joins_course : json :=
  JObj [("@type", JStr "Course"); ("name", JStr "Joins");
        ("timeRequired", JStr "PT5H")].

Definition subqueries_course : json :=
  JObj [("@type", JStr "Course"); ("name", JStr "Subqueries");
        ("timeRequired", JStr "PT10H30M")].

Definition two_courses : json := JArr [joins_course; subqueries_course].

Definition summary_item (label value : string) : node :=
  Tag "div" []
      [Tag "span" [("class", "productSummarySection__itemLabel")] [Text label];
       Tag "span" [("class", "productSummarySection__itemValue")] [Text value]].

Definition course_page : node :=
  page [json_ld (json_text two_courses)]
       [summary_item "Exercises" "many";
        summary_item "Coding Challenges" "12 exercises";
        Tag "h2" [] [Text "Skills you will gain"];
        Tag "ul" [] [Tag "li" [] [Text "Joins"]; Tag "li" [] [Text " Subqueries "]]].

Definition course_loads : string -> result json := decode [two_courses].

(** ** A page whose first block is an empty script *)

Definition empty_json_ld : node :=
  Tag "script" [("type", "application/ld+json")] [].

Definition page_with_empty_block : node :=
  page [empty_json_ld; json_ld (json_text joins_course)] [].

(** ** Content regions *)

Definition two_equal_paragraphs : node :=
  Tag "div" [] [p [Text "Same"]; p [Tag "b" [] [Text " Same "]]; p [Text "Other"]].

(** ** Records *)

Definition joins_record : course_scraper.course_info :=
  {| course_scraper.ci_type := JStr "Course";
     course_scraper.ci_title := JStr "Joins";
     course_scraper.ci_description := JStr "All about joins";
     course_scraper.ci_price := JInt 39;
     course_scraper.ci_currency := JStr "USD";
     course_scraper.ci_courseWorkload_hours := Some 5%Z;
     course_scraper.ci_educationalLevel := JStr "Beginner";
     course_scraper.ci_skills := ["Joins"; "Subqueries"];
     course_scraper.ci_detailed_description := "";
     course_scraper.ci_exercises_count := None;
     course_scraper.ci_source_url := Some "https://example.com/joins" |}.

Definition mysql_record : track_scraper.track_info :=
  {| track_scraper.ti_name := JStr "Advanced MySQL Practice Track";
     track_scraper.ti_description := JStr "Practice MySQL";
     track_scraper.ti_detailed_description := "";
     track_scraper.ti_price := JStr "";
     track_scraper.ti_hours := JStr "40";
     track_scraper.ti_level := JStr "";
     track_scraper.ti_dialect := "MySQL";
     track_scraper.ti_purpose := "practice";
     track_scraper.ti_skills := ["Joins"; "Subqueries"];
     track_scraper.ti_course_urls := [];
     track_scraper.ti_url := Some "https://example.com/mysql" |}.

Definition text_and_image_paragraph : node :=
  Tag "div" []
      [p [Text "Intro "; Tag "img" [("src", "x.png")] []];
       p [Tag "img" [("src", "y.png")] []];
       p [Text "Outro"]].

End Samples.

(* ================================================================== *)
(** * Further vocabulary, for the properties of the code               *)
(* ================================================================== *)

Module Props.
Import Py Json Html Sections.

(** The decoder raises nothing but [JSONDecodeError], as [json.loads] does
    on a string. *)
Definition only_decode_errors (json_loads : string -> result json) : Prop :=
  forall text e, json_loads text = Raise e -> e = JSONDecodeError.

(** The script has a text and the text does not decode. *)
Definition undecodable (json_loads : string -> result json) (script : located)
  : bool :=
  match string_of (loc_node script) with
  | Some text =>
      match json_loads text with
      | Raise JSONDecodeError => true
      | _ => false
      end
  | None => false
  end.

(** The courses of a result, or the exception. *)
Definition courses_of (r : result course_scraper.found)
  : result (list course_scraper.course_info) :=
  match r with
  | Ok f => Ok (course_scraper.courses f)
  | Raise e => Raise e
  end.

(** A course as [extract_course_data] leaves it: its type is "Course" and
    the fields that the main loop sets are still empty. *)
Definition fresh_course (c : course_scraper.course_info) : Prop :=
  course_scraper.ci_type c = JStr "Course" /\
  course_scraper.ci_skills c = [] /\
  course_scraper.ci_detailed_description c = "" /\
  course_scraper.ci_exercises_count c = None /\
  course_scraper.ci_source_url c = None.

Definition is_object (v : json) : Prop := exists fields, v = JObj fields.

(** The value under [k] of an object, [None] for a missing key or for a
    value that is no object. *)
Definition field (k : string) (v : json) : option json :=
  match v with
  | JObj fields => lookup k fields
  | _ => None
  end.

(** The URL of a member of [hasPart], when it has one. *)
Definition url_if_present (member : json) : list json :=
  match field "url" member with
  | Some u => [u]
  | None => []
  end.

(** The request for [url] succeeds. *)
Definition fetched (fetch : string -> option node) (url : string) : bool :=
  match fetch url with
  | Some _ => true
  | None => false
  end.

Fixpoint all_space (s : string) : bool :=
  match s with
  | "" => true
  | String c s' => is_space c && all_space s'
  end.

(** [s] has no white space at either end. *)
Definition Stripped (s : string) : Prop :=
  (forall c r, s = String c r -> is_space c = false) /\
  (forall r c, s = r ++ String c "" -> is_space c = false).

(** The block is one that [extract_track_info] reads without an error: an
    object whose name and duration, if present, are strings, whose offers,
    if present, are an object, and whose parts, if present, are a list of
    objects. *)
Definition well_formed_track (v : json) : Prop :=
  is_object v /\
  (field "name" v = None \/ exists s, field "name" v = Some (JStr s)) /\
  (field "offers" v = None \/ exists o, field "offers" v = Some (JObj o)) /\
  (field "timeRequired" v = None
   \/ exists s, field "timeRequired" v = Some (JStr s)) /\
  (field "hasPart" v = None
   \/ exists parts, field "hasPart" v = Some (JArr parts)
                     /\ Forall is_object parts).

End Props.

(* ================================================================== *)
(** * Further sample documents                                         *)
(* ================================================================== *)

Module MoreSamples.
Import Py Json Html Sections Samples.

Definition page_with_broken_block : node :=
  page [json_ld "{ not json"; json_ld (json_text joins_course)] [].

Definition broken_loads : string -> result json := decode [joins_course].

Definition instance_course : json :=
  JObj [("@type", JStr "Course"); ("name", JStr "Windows");
        ("hasCourseInstance",
         JArr [JObj [("courseWorkload", JStr "PT8H")]])].

Definition priced_offers : json :=
  JObj [("price", JInt 39); ("priceCurrency", JStr "USD")].

Definition priced_course : json :=
  JObj [("@type", JStr "Course"); ("name", JStr "Joins");
        ("offers", priced_offers)].

Definition catalogue : json :=
  JObj [("itemListElement",
         JArr [JObj [("url", JStr "https://example.com/joins")];
               JObj [("url", JStr "https://example.com/windows")]])].

(** The pages behind two URLs; the request for any other URL fails. *)
Definition course_site (url : string) : option node :=
  if String.eqb url "https://example.com/sql" then Some course_page
  else if String.eqb url "https://example.com/empty" then Some (page [] [])
  else None.

Definition track_site (url : string) : option node :=
  if String.eqb url "https://example.com/mysql" then Some track_page
  else None.

Definition site_urls : list string :=
  ["https://example.com/gone"; "https://example.com/sql";
   "https://example.com/empty"].

Definition url_file : list string :=
  [" https://example.com/mysql " ++ newline; newline; "https://example.com/pg"].

End MoreSamples.

(* ================================================================== *)
(** * Facts about the Python values                                    *)
(* ================================================================== *)

Module PyFacts.
Import Py PyNotations Spec.

Lemma bind_ok {A B : Type} (m : result A) (k : A -> result B) (b : B) :
  bind m k = Ok b -> exists a, m = Ok a /\ k a = Ok b.
Proof.
  destruct m as [a|e]; simpl; intros H.
  - exists a; split; [reflexivity | exact H].
  - discriminate H.
Qed.

Lemma prefix_app (p s : string) :
  prefix p s = true <-> exists b, s = p ++ b.
Proof.
  revert s; induction p as [|c p IH]; intros s; simpl.
  - split; [intros _; exists s; reflexivity | destruct s; reflexivity].
  - destruct s as [|d s]; simpl.
    + split; [discriminate | intros [b Hb]; discriminate Hb].
    + destruct (ascii_dec c d) as [->|Hne].
      * rewrite IH. split; intros [b Hb]; exists b.
        -- now rewrite Hb.
        -- now inversion Hb.
      * split; [discriminate | intros [b Hb]; inversion Hb; congruence].
Qed.

Lemma contains_spec (p s : string) :
  contains p s = true <-> Substring p s.
Proof.
  induction s as [|c s IH]; cbn [contains].
  - destruct (prefix p "") eqn:Hp.
    + split; [intros _ | reflexivity].
      apply prefix_app in Hp. destruct Hp as [b Hb].
      exists "", b. exact Hb.
    + split; [discriminate|].
      intros (a & b & Hab). destruct a; simpl in Hab.
      * assert (prefix p "" = true) by (apply prefix_app; exists b; exact Hab).
        congruence.
      * discriminate Hab.
  - destruct (prefix p (String c s)) eqn:Hp.
    + split; [intros _ | reflexivity].
      apply prefix_app in Hp. destruct Hp as [b Hb].
      exists "", b. exact Hb.
    + rewrite IH. split.
      * intros (a & b & Hab). exists (String c a), b. simpl. now rewrite Hab.
      * intros (a & b & Hab). destruct a as [|d a]; simpl in Hab.
        -- assert (prefix p (String c s) = true)
             by (apply prefix_app; exists b; exact Hab).
           congruence.
        -- inversion Hab; subst. exists a, b. reflexivity.
Qed.

Lemma contains_false (p s : string) :
  contains p s = false <-> ~ Substring p s.
Proof.
  rewrite <- contains_spec. destruct (contains p s); split; congruence.
Qed.

(** ** Digits *)

Lemma span_digits_split (s : string) :
  forall ds rest, span_digits s = (ds, rest) ->
                  s = ds ++ rest /\ all_digits ds = true.
Proof.
  induction s as [|c s IH]; simpl; intros ds rest H.
  - inversion H; subst. split; reflexivity.
  - destruct (is_digit c) eqn:Hc.
    + destruct (span_digits s) as [ds' rest'] eqn:Hs.
      inversion H; subst. destruct (IH _ _ eq_refl) as [-> Hd].
      split; [reflexivity | simpl; now rewrite Hc, Hd].
    + inversion H; subst. split; reflexivity.
Qed.

Lemma span_digits_run (ds : string) (c : ascii) (rest : string) :
  all_digits ds = true -> is_digit c = false ->
  span_digits (ds ++ String c rest) = (ds, String c rest).
Proof.
  intros Hd Hc. induction ds as [|d ds IH]; simpl in *.
  - now rewrite Hc.
  - apply andb_true_iff in Hd. destruct Hd as [Hd1 Hd2].
    rewrite Hd1, (IH Hd2). reflexivity.
Qed.

Lemma int_of_string_run (ds : string) :
  ds <> "" -> all_digits ds = true -> int_of_string ds = int_of_run ds.
Proof.
  intros Hne Hd. unfold int_of_string, int_of_run. destruct ds; [congruence|].
  now rewrite Hd.
Qed.

Lemma int_of_string_digits (ds : string) :
  ds <> "" -> all_digits ds = true ->
  (String.length ds <= max_str_digits)%nat ->
  int_of_string ds = Ok (int_of_digits_from 0 ds).
Proof.
  intros Hne Hd Hlen. rewrite (int_of_string_run Hne Hd). unfold int_of_run.
  apply Nat.leb_le in Hlen. now rewrite Hlen.
Qed.

Lemma int_of_string_long (ds : string) :
  ds <> "" -> all_digits ds = true ->
  (max_str_digits < String.length ds)%nat ->
  int_of_string ds = Raise ValueError.
Proof.
  intros Hne Hd Hlen. rewrite (int_of_string_run Hne Hd). unfold int_of_run.
  apply Nat.leb_gt in Hlen. now rewrite Hlen.
Qed.

Lemma int_of_string_ok (s : string) (z : Z) :
  int_of_string s = Ok z ->
  s <> "" /\ all_digits s = true /\
  (String.length s <= max_str_digits)%nat /\ z = int_of_digits_from 0 s.
Proof.
  unfold int_of_string. destruct s as [|c s]; [discriminate|].
  destruct (all_digits (String c s)) eqn:Hd; [|discriminate].
  destruct (String.length (String c s) <=? max_str_digits)%nat eqn:Hlen;
    [|discriminate].
  apply Nat.leb_le in Hlen.
  intros H; inversion H. repeat split; congruence.
Qed.

Lemma int_of_string_raise (s : string) (e : exn) :
  int_of_string s = Raise e -> e = ValueError.
Proof.
  unfold int_of_string. destruct s as [|c s]; [congruence|].
  destruct (all_digits (String c s)); [|congruence].
  destruct (String.length (String c s) <=? max_str_digits)%nat; congruence.
Qed.

Lemma remove_non_digits_all_digits (s : string) :
  all_digits (remove_non_digits s) = true.
Proof.
  induction s as [|c s IH]; simpl; [reflexivity|].
  destruct (is_digit c) eqn:Hc; simpl; [now rewrite Hc|exact IH].
Qed.

(** ** The search for [PT(\d+)H] *)

Lemma match_PTdH_here_some (s g : string) :
  match_PTdH_here s = Some g ->
  exists post, s = "PT" ++ g ++ "H" ++ post /\ g <> "" /\ all_digits g = true.
Proof.
  unfold match_PTdH_here.
  destruct s as [|c1 s]; [discriminate|].
  destruct c1 as [[] [] [] [] [] [] [] []]; try discriminate.
  destruct s as [|c2 s]; [discriminate|].
  destruct c2 as [[] [] [] [] [] [] [] []]; try discriminate.
  destruct (span_digits s) as [ds rest] eqn:Hs.
  destruct (span_digits_split _ Hs) as [-> Hd].
  destruct ds as [|d ds]; [discriminate|].
  destruct rest as [|h rest]; [discriminate|].
  destruct h as [[] [] [] [] [] [] [] []]; try discriminate.
  intros H; inversion H; subst.
  exists rest. split; [reflexivity|split; [discriminate|exact Hd]].
Qed.

Lemma match_PTdH_here_at (ds post : string) :
  ds <> "" -> all_digits ds = true ->
  match_PTdH_here ("PT" ++ ds ++ "H" ++ post) = Some ds.
Proof.
  intros Hne Hd. simpl.
  rewrite (span_digits_run ds "H" post Hd eq_refl).
  destruct ds; [congruence | reflexivity].
Qed.

Lemma search_PTdH_unfold (s : string) :
  search_PTdH s =
  match match_PTdH_here s with
  | Some g => Some g
  | None => match s with
            | "" => None
            | String _ s' => search_PTdH s'
            end
  end.
Proof. destruct s; reflexivity. Qed.

Lemma search_PTdH_some (s g : string) :
  search_PTdH s = Some g -> Occurs_PTdH g s.
Proof.
  induction s as [|c s IH]; rewrite search_PTdH_unfold; intros H.
  - simpl in H. discriminate.
  - destruct (match_PTdH_here (String c s)) as [g'|] eqn:Hm.
    + inversion H; subst g'.
      destruct (match_PTdH_here_some _ Hm) as (post & Hs & Hne & Hd).
      exists "", post. split; [exact Hs | split; assumption].
    + destruct (IH H) as (pre & post & Hs & Hne & Hd).
      exists (String c pre), post. split; [|split; assumption].
      simpl. now rewrite Hs.
Qed.

Lemma Occurs_PTdH_search (s ds : string) :
  Occurs_PTdH ds s ->
  exists g, search_PTdH s = Some g /\ g <> "" /\ all_digits g = true.
Proof.
  intros (pre & post & -> & Hne & Hd).
  induction pre as [|c pre IH].
  - exists ds. change ("" ++ "PT" ++ ds ++ "H" ++ post)
      with ("PT" ++ ds ++ "H" ++ post).
    rewrite search_PTdH_unfold, (match_PTdH_here_at post Hne Hd). auto.
  - destruct IH as (g & Hg & Hgne & Hgd).
    change (String c pre ++ "PT" ++ ds ++ "H" ++ post)
      with (String c (pre ++ "PT" ++ ds ++ "H" ++ post)).
    rewrite search_PTdH_unfold.
    destruct (match_PTdH_here (String c (pre ++ "PT" ++ ds ++ "H" ++ post)))
      as [g'|] eqn:Hm.
    + destruct (match_PTdH_here_some _ Hm) as (post' & _ & Hne' & Hd').
      exists g'. auto.
    + exists g. auto.
Qed.

End PyFacts.

(* ================================================================== *)
(** * The duration of a course (C1)                                    *)
(* ================================================================== *)

Module DurationFacts.
Import Py Json PyNotations Spec PyFacts.
Import course_scraper.

(** On a string the parser is the search; what it finds goes to [int]. *)
Lemma workload_hours_str (s : string) :
  workload_hours (JStr s) =
  match search_PTdH s with
  | Some g => match int_of_run g with
              | Ok h => Ok (Some h)
              | Raise e => Raise e
              end
  | None => Ok None
  end.
Proof.
  unfold workload_hours.
  destruct (truthy (JStr s)) eqn:Ht.
  - destruct (search_PTdH s) as [g|] eqn:Hg; [|reflexivity].
    destruct (search_PTdH_some _ Hg) as (pre & post & _ & Hne & Hd).
    rewrite (int_of_string_run Hne Hd). now destruct (int_of_run g).
  - assert (s = "") as ->.
    { simpl in Ht. destruct (String.eqb_spec s ""); [assumption|discriminate]. }
    reflexivity.
Qed.

Lemma Is_PTdH_search (ds s : string) :
  Is_PTdH ds s -> search_PTdH s = Some ds.
Proof.
  intros (-> & Hne & Hd).
  rewrite search_PTdH_unfold.
  change ("PT" ++ ds ++ "H") with ("PT" ++ ds ++ "H" ++ "").
  now rewrite (match_PTdH_here_at "" Hne Hd).
Qed.

(** ** The leftmost match *)

Lemma search_PTdH_first (s g : string) :
  search_PTdH s = Some g -> First_PTdH g s.
Proof.
  induction s as [|c s IH]; rewrite search_PTdH_unfold; intros H.
  - simpl in H. discriminate.
  - destruct (match_PTdH_here (String c s)) as [g'|] eqn:Hm.
    + inversion H; subst g'.
      destruct (match_PTdH_here_some _ Hm) as (post & Hs & Hne & Hd).
      exists "", post. split; [exact Hs|]. split; [exact Hne|].
      split; [exact Hd|]. intros. simpl. lia.
    + destruct (IH H) as (pre & post & Hs & Hne & Hd & Hfirst).
      exists (String c pre), post. split; [simpl; now rewrite Hs|].
      split; [exact Hne|]. split; [exact Hd|].
      intros pre' ds' post' Hs' Hne' Hd'.
      destruct pre' as [|c' pre'].
      * change ("" ++ "PT" ++ ds' ++ "H" ++ post')
          with ("PT" ++ ds' ++ "H" ++ post') in Hs'.
        rewrite Hs', (match_PTdH_here_at post' Hne' Hd') in Hm. discriminate Hm.
      * simpl in Hs'. injection Hs' as _ Hs'.
        pose proof (Hfirst pre' ds' post' Hs' Hne' Hd') as Hle.
        simpl. lia.
Qed.

Lemma append_same_length (a b x y : string) :
  a ++ x = b ++ y -> String.length a = String.length b -> a = b /\ x = y.
Proof.
  revert b. induction a as [|c a IH]; intros [|d b]; simpl; intros H Hlen;
    try discriminate Hlen.
  - split; [reflexivity|exact H].
  - inversion H; subst. inversion Hlen as [Hlen'].
    destruct (IH _ H2 Hlen') as [-> ->]. split; reflexivity.
Qed.

Lemma First_PTdH_unique (s ds1 ds2 : string) :
  First_PTdH ds1 s -> First_PTdH ds2 s -> ds1 = ds2.
Proof.
  intros (pre1 & post1 & Hs1 & Hne1 & Hd1 & Hf1)
         (pre2 & post2 & Hs2 & Hne2 & Hd2 & Hf2).
  assert (Hlen : String.length pre1 = String.length pre2).
  { apply Nat.le_antisymm.
    - exact (Hf1 _ _ _ Hs2 Hne2 Hd2).
    - exact (Hf2 _ _ _ Hs1 Hne1 Hd1). }
  rewrite Hs1 in Hs2.
  destruct (append_same_length _ _ _ _ Hs2 Hlen) as [_ Hrest].
  simpl in Hrest. inversion Hrest as [Hruns].
  pose proof (span_digits_run ds1 "H" post1 Hd1 eq_refl) as H1.
  pose proof (span_digits_run ds2 "H" post2 Hd2 eq_refl) as H2.
  change (ds1 ++ "H" ++ post1) with (ds1 ++ String "H" post1) in Hruns.
  change (ds2 ++ "H" ++ post2) with (ds2 ++ String "H" post2) in Hruns.
  rewrite Hruns in H1. congruence.
Qed.

Lemma First_PTdH_search (s ds : string) :
  First_PTdH ds s -> search_PTdH s = Some ds.
Proof.
  intros Hfirst.
  assert (Hocc : Occurs_PTdH ds s).
  { destruct Hfirst as (pre & post & Hs & Hne & Hd & _).
    exists pre, post. auto. }
  destruct (Occurs_PTdH_search Hocc) as (g & Hg & _).
  rewrite Hg. f_equal.
  exact (First_PTdH_unique (search_PTdH_first _ Hg) Hfirst).
Qed.

Lemma Is_PTdH_First (ds s : string) : Is_PTdH ds s -> First_PTdH ds s.
Proof.
  intros Hds. apply search_PTdH_first. now apply Is_PTdH_search.
Qed.

End DurationFacts.

Import Py Json Html Sections PyNotations Spec PyFacts.

(* ================================================================== *)
(** * The track record (C3, C7)                                        *)
(* ================================================================== *)

Module TrackFacts.
Import track_scraper.

(** Reading a chain of binds that ended well, one step at a time. *)
Ltac bind_steps H :=
  repeat match type of H with
         | bind ?m ?k = Ok _ =>
             let a := fresh "v" in
             let Ha := fresh "Hv" in
             apply bind_ok in H; destruct H as (a & Ha & H)
         end.

Lemma dialect_of_title (title : string) :
  exists d,
    dialect_of (JStr title) = Ok d /\
    ((d = "MySQL" /\ Substring "MySQL" title)
     \/ (d = "PostgreSQL" /\ ~ Substring "MySQL" title
         /\ Substring "PostgreSQL" title)
     \/ (d = "SQL Server" /\ ~ Substring "MySQL" title
         /\ ~ Substring "PostgreSQL" title /\ Substring "SQL Server" title)
     \/ (d = "Standard SQL" /\ ~ Substring "MySQL" title
         /\ ~ Substring "PostgreSQL" title /\ ~ Substring "SQL Server" title)).
Proof.
  unfold dialect_of, str_in, bind.
  destruct (contains "MySQL" title) eqn:H1.
  { eexists; split; [reflexivity|]. left. split; [reflexivity|].
    now apply contains_spec. }
  apply contains_false in H1.
  destruct (contains "PostgreSQL" title) eqn:H2.
  { eexists; split; [reflexivity|]. right; left.
    repeat split; try assumption. now apply contains_spec. }
  apply contains_false in H2.
  destruct (contains "SQL Server" title) eqn:H3.
  { eexists; split; [reflexivity|]. right; right; left.
    repeat split; try assumption. now apply contains_spec. }
  apply contains_false in H3.
  eexists; split; [reflexivity|]. right; right; right.
  repeat split; assumption.
Qed.

Lemma purpose_of_title (title : string) :
  exists p,
    purpose_of (JStr title) = Ok p /\
    ((p = "practice" /\ Substring "Practice" title)
     \/ (p = "learn" /\ ~ Substring "Practice" title)).
Proof.
  unfold purpose_of, str_in, bind.
  destruct (contains "Practice" title) eqn:H1.
  - eexists; split; [reflexivity|]. left. split; [reflexivity|].
    now apply contains_spec.
  - eexists; split; [reflexivity|]. right. split; [reflexivity|].
    now apply contains_false.
Qed.

Section Pipeline.

Variable json_loads : string -> result json.

(** What a record that was built tells about the script it was built
    from. *)
Lemma track_info_of_script_ok (soup : located) (script_tag : node)
      (info : track_info) :
  track_info_of_script json_loads soup script_tag = Ok info ->
  exists json_data,
    json_loads (get_text script_tag) = Ok json_data /\
    get_default "name" (JStr "") json_data = Ok (ti_name info) /\
    get_default "description" (JStr "") json_data = Ok (ti_description info) /\
    dialect_of (ti_name info) = Ok (ti_dialect info) /\
    purpose_of (ti_name info) = Ok (ti_purpose info) /\
    ti_skills info = extract_skills soup /\
    ti_detailed_description info = extract_detailed_description soup.
Proof.
  unfold track_info_of_script. intros H.
  bind_steps H. inversion H; subst; clear H. simpl.
  eexists. repeat split; eassumption.
Qed.

(** A record comes from the second script of the document. *)
Lemma extract_track_info_some (html : node) (info : track_info) :
  extract_track_info json_loads html = Ok (Some info) ->
  exists second,
    nth_error (find_all is_json_ld_script (soup_of html)) 1 = Some second /\
    track_info_of_script json_loads (soup_of html) (loc_node second) = Ok info.
Proof.
  unfold extract_track_info.
  destruct (List.length (find_all is_json_ld_script (soup_of html)) <? 2)%nat;
    [discriminate|].
  destruct (nth_error (find_all is_json_ld_script (soup_of html)) 1)
    as [second|]; [|discriminate].
  destruct (track_info_of_script json_loads (soup_of html) (loc_node second))
    as [i|e] eqn:Hi.
  - intros H; inversion H; subst. exists second. split; [reflexivity|exact Hi].
  - destruct (caught e _); discriminate.
Qed.

End Pipeline.

End TrackFacts.

(** C7.  For every Track title the dialect and the purpose are resolved
    without an error: the dialect is "MySQL" when the title contains
    "MySQL", else "PostgreSQL" when it contains "PostgreSQL", else
    "SQL Server" when it contains "SQL Server", else "Standard SQL"; the
    purpose is "practice" exactly when the title contains "Practice", else
    "learn"; and every record that [extract_track_info] builds with that
    title carries this dialect and this purpose. *)
Theorem C7_dialect_and_purpose (title : string) :
  exists d p,
    track_scraper.dialect_of (JStr title) = Ok d /\
    track_scraper.purpose_of (JStr title) = Ok p /\
    ((d = "MySQL" /\ Substring "MySQL" title)
     \/ (d = "PostgreSQL" /\ ~ Substring "MySQL" title
         /\ Substring "PostgreSQL" title)
     \/ (d = "SQL Server" /\ ~ Substring "MySQL" title
         /\ ~ Substring "PostgreSQL" title /\ Substring "SQL Server" title)
     \/ (d = "Standard SQL" /\ ~ Substring "MySQL" title
         /\ ~ Substring "PostgreSQL" title /\ ~ Substring "SQL Server" title)) /\
    ((p = "practice" /\ Substring "Practice" title)
     \/ (p = "learn" /\ ~ Substring "Practice" title)) /\
    (forall json_loads html info,
        track_scraper.extract_track_info json_loads html = Ok (Some info) ->
        track_scraper.ti_name info = JStr title ->
        track_scraper.ti_dialect info = d /\ track_scraper.ti_purpose info = p).
Proof.
  destruct (TrackFacts.dialect_of_title title) as (d & Hd & Hdc).
  destruct (TrackFacts.purpose_of_title title) as (p & Hp & Hpc).
  exists d, p. repeat (split; [assumption|]).
  intros json_loads html info Hinfo Hname.
  destruct (TrackFacts.extract_track_info_some _ _ Hinfo) as (second & _ & Hs).
  destruct (TrackFacts.track_info_of_script_ok _ _ _ Hs)
    as (jd & _ & _ & _ & Hd' & Hp' & _).
  rewrite Hname in Hd', Hp'. split; congruence.
Qed.

Lemma C7_dialect_and_purpose_witness :
  exists info,
    track_scraper.extract_track_info Samples.track_loads Samples.track_page
    = Ok (Some info) /\
    track_scraper.ti_dialect info = "MySQL" /\
    track_scraper.ti_purpose info = "practice".
Proof.
  destruct (C7_dialect_and_purpose "Advanced MySQL Practice Track")
    as (d & p & Hd & Hp & _ & _ & Hrec).
  eexists. split; [reflexivity|].
  destruct (Hrec Samples.track_loads Samples.track_page _ eq_refl eq_refl)
    as [Hd' Hp'].
  vm_compute in Hd, Hp. split; congruence.
Defined.

(** C3 (as amended).  For every Track document the record is built from the
    second [application/ld+json] script of the document, whatever type that
    block declares: with fewer than two such scripts the result is none;
    every record returned has its name and its description read from the
    value the second script decodes to; and when the second script does not
    decode, the result is none. *)
Theorem C3_second_script_block (json_loads : string -> result json) (html : node) :
  let scripts := find_all is_json_ld_script (soup_of html) in
  ((List.length scripts < 2)%nat ->
   track_scraper.extract_track_info json_loads html = Ok None) /\
  (forall info,
      track_scraper.extract_track_info json_loads html = Ok (Some info) ->
      exists second json_data,
        nth_error scripts 1 = Some second /\
        json_loads (get_text (loc_node second)) = Ok json_data /\
        get_default "name" (JStr "") json_data = Ok (track_scraper.ti_name info) /\
        get_default "description" (JStr "") json_data
        = Ok (track_scraper.ti_description info)) /\
  (forall second,
      nth_error scripts 1 = Some second ->
      json_loads (get_text (loc_node second)) = Raise JSONDecodeError ->
      track_scraper.extract_track_info json_loads html = Ok None).
Proof.
  intros scripts. split; [|split].
  - intros Hlen. unfold track_scraper.extract_track_info. fold scripts.
    apply Nat.ltb_lt in Hlen. now rewrite Hlen.
  - intros info Hinfo.
    destruct (TrackFacts.extract_track_info_some _ _ Hinfo) as (second & Hn & Hs).
    destruct (TrackFacts.track_info_of_script_ok _ _ _ Hs)
      as (jd & Hjd & Hname & Hdesc & _).
    exists second, jd. auto.
  - intros second Hn Hraise. unfold track_scraper.extract_track_info.
    fold scripts. rewrite Hn.
    destruct (List.length scripts <? 2)%nat; [reflexivity|].
    unfold track_scraper.track_info_of_script. rewrite Hraise. reflexivity.
Qed.

Lemma C3_second_script_block_witness :
  exists second json_data,
    nth_error (find_all is_json_ld_script (soup_of Samples.track_page)) 1
    = Some second /\
    Samples.track_loads (get_text (loc_node second)) = Ok json_data /\
    get_default "name" (JStr "") json_data
    = Ok (JStr "Advanced MySQL Practice Track") /\
    get_default "description" (JStr "") json_data = Ok (JStr "Practice MySQL").
Proof.
  exact (proj1 (proj2 (C3_second_script_block Samples.track_loads
                                              Samples.track_page))
               _ eq_refl).
Defined.

(** C3 as stated fails: the sample track page has a single block whose
    declared type is "Course", so no second block of that type exists, and
    yet a record is returned, built from the second script. *)
Lemma C3_counterexample_no_second_course_block :
  second_matching_block Samples.track_loads "Course" Samples.track_page = None /\
  exists info,
    track_scraper.extract_track_info Samples.track_loads Samples.track_page
    = Ok (Some info) /\
    track_scraper.ti_name info = JStr "Advanced MySQL Practice Track".
Proof.
  split; [reflexivity|]. eexists. split; reflexivity.
Qed.

(* ================================================================== *)
(** * The number of exercises (C6)                                     *)
(* ================================================================== *)

Module ExercisesFacts.
Import course_scraper.

Lemma is_exercises_label_spec (l : located) :
  is_exercises_label l = true <-> Candidate l.
Proof.
  unfold is_exercises_label, Candidate. cbv zeta.
  rewrite orb_true_iff, !contains_spec. reflexivity.
Qed.

Lemma Yields_functional (l : located) (n m : Z) :
  Yields l n -> Yields l m -> n = m.
Proof.
  intros (v & Hv & _ & _ & Hn) (w & Hw & _ & _ & Hm).
  rewrite Hv in Hw. inversion Hw; subst. reflexivity.
Qed.

(** The head of the labels either settles the answer or is passed over. *)
Lemma scan_head (l : located) :
  (exists n, Candidate l /\ Yields l n /\
             forall rest, scan_summary_items (l :: rest) = Ok (Some n))
  \/ ((Candidate l -> ~ exists m, Yields l m) /\
      forall rest, scan_summary_items (l :: rest) = scan_summary_items rest).
Proof.
  cbn [scan_summary_items].
  destruct (is_exercises_label l) eqn:Hc.
  - apply is_exercises_label_spec in Hc.
    destruct (value_span_of l) as [v|] eqn:Hv.
    + destruct (int_of_string (remove_non_digits (get_text_strip v)))
        as [n|e] eqn:Hi.
      * left. exists n. apply int_of_string_ok in Hi.
        destruct Hi as (Hne & _ & Hlen & Hn).
        split; [exact Hc|]. split; [|reflexivity].
        exists v. split; [exact Hv|]. split; [exact Hne|]. split; assumption.
      * right. rewrite (int_of_string_raise _ Hi). split; [|reflexivity].
        intros _ (m & w & Hw & Hne & Hlen & _).
        rewrite Hv in Hw. inversion Hw; subst w.
        rewrite (int_of_string_digits Hne (remove_non_digits_all_digits _) Hlen)
          in Hi.
        discriminate Hi.
    + right. split; [|reflexivity].
      intros _ (m & w & Hw & _). congruence.
  - right. split; [|reflexivity].
    intros Hcand. apply is_exercises_label_spec in Hcand. congruence.
Qed.

Lemma scan_summary_items_spec (items : list located) :
  exists r,
    scan_summary_items items = Ok r /\
    (forall n,
        r = Some n <->
        exists before l after,
          items = (before ++ l :: after)%list /\
          Candidate l /\ Yields l n /\
          forall l', In l' before -> Candidate l' -> ~ exists m, Yields l' m) /\
    (r = None <->
     forall l, In l items -> Candidate l -> ~ exists m, Yields l m).
Proof.
  induction items as [|l items IH].
  - exists None. split; [reflexivity|]. split.
    + intros n. split; [discriminate|].
      intros (before & l & after & H & _). destruct before; discriminate H.
    + split; [intros _ l []|reflexivity].
  - destruct (scan_head l) as [(n0 & Hc & Hy & Hscan)|(Hno & Hscan)].
    + exists (Some n0). split; [apply Hscan|]. split.
      * intros n. split.
        -- intros H; inversion H; subst n.
           exists [], l, items. repeat split; try assumption.
           intros l' [].
        -- intros (before & l' & after & Hitems & Hc' & Hy' & Hbefore).
           destruct before as [|b before]; simpl in Hitems;
             inversion Hitems; subst.
           ++ f_equal. exact (Yields_functional Hy Hy').
           ++ exfalso. apply (Hbefore b (or_introl eq_refl) Hc).
              exists n0. exact Hy.
      * split; [discriminate|].
        intros H. exfalso. apply (H l (or_introl eq_refl) Hc).
        exists n0. exact Hy.
    + destruct IH as (r & Hr & Hsome & Hnone).
      exists r. split; [rewrite Hscan; exact Hr|]. split.
      * intros n. rewrite Hsome. split.
        -- intros (before & l' & after & Hitems & Hc' & Hy' & Hbefore).
           exists (l :: before), l', after. subst items.
           repeat split; try assumption.
           intros x [<-|Hx]; [exact Hno | now apply Hbefore].
        -- intros (before & l' & after & Hitems & Hc' & Hy' & Hbefore).
           destruct before as [|b before]; simpl in Hitems;
             inversion Hitems; subst.
           ++ exfalso. apply (Hno Hc'). exists n. exact Hy'.
           ++ exists before, l', after. repeat split; try assumption.
              intros x Hx. apply Hbefore. now right.
      * rewrite Hnone. split.
        -- intros H x [<-|Hx]; [exact Hno | now apply H].
        -- intros H x Hx. apply H. now right.
Qed.

End ExercisesFacts.

(** C6.  For every document the exercises-count extractor returns without
    an error.  Among the summary labels, in document order, the candidates
    are those whose lower-cased text contains "coding challenges" or
    "exercises"; a candidate yields an integer when the text of the value
    next to it, stripped of every character that is no digit, parses (it
    is not empty and has at most 4300 digits, the limit of [int]), and the
    integer is that remainder read in base ten.  The extractor
    returns [n] exactly when some candidate yields [n] and no candidate
    before it yields anything, and returns none exactly when no candidate
    yields anything. *)
Theorem C6_first_parseable_candidate (soup : located) :
  exists r,
    course_scraper.extract_exercises_count soup = Ok r /\
    (forall n,
        r = Some n <->
        exists before l after,
          course_scraper.summary_items_of soup = (before ++ l :: after)%list /\
          Candidate l /\ Yields l n /\
          forall l', In l' before -> Candidate l' -> ~ exists m, Yields l' m) /\
    (r = None <->
     forall l, In l (course_scraper.summary_items_of soup) ->
               Candidate l -> ~ exists m, Yields l m).
Proof.
  exact (ExercisesFacts.scan_summary_items_spec
           (course_scraper.summary_items_of soup)).
Qed.

Lemma C6_first_parseable_candidate_witness :
  exists before l after,
    course_scraper.summary_items_of (soup_of Samples.course_page)
    = (before ++ l :: after)%list /\
    Candidate l /\ Yields l 12%Z /\
    forall l', In l' before -> Candidate l' -> ~ exists m, Yields l' m.
Proof.
  destruct (C6_first_parseable_candidate (soup_of Samples.course_page))
    as (r & Hr & Hsome & _).
  apply Hsome. vm_compute in Hr. congruence.
Defined.

(* ================================================================== *)
(** * Rendering a region (C2, C4)                                      *)
(* ================================================================== *)

Module RenderFacts.
Import track_scraper.

Lemma mem_In (x : string) (l : list string) : mem x l = true <-> In x l.
Proof.
  unfold mem. rewrite existsb_exists. split.
  - intros (y & Hy & Heq). apply String.eqb_eq in Heq. now subst.
  - intros H. exists x. split; [exact H | apply String.eqb_refl].
Qed.

Lemma mem_app (x : string) (a b : list string) :
  mem x (a ++ b)%list = mem x a || mem x b.
Proof. apply existsb_app. Qed.

Lemma filter_and {A : Type} (f g : A -> bool) (l : list A) :
  filter f (filter g l) = filter (fun x => f x && g x) l.
Proof.
  induction l as [|x l IH]; simpl; [reflexivity|].
  destruct (g x); simpl.
  - rewrite andb_true_r. destruct (f x); now rewrite IH.
  - now rewrite andb_false_r.
Qed.

(** Passing over the lines already kept and over a further line [x]. *)
Lemma filter_not_seen_step (x : string) (seen : list string) (l : list string) :
  filter (fun y => negb (mem y seen)) (filter (fun y => negb (String.eqb y x)) l)
  = filter (fun y => negb (mem y (x :: seen))) l.
Proof.
  rewrite filter_and. apply filter_ext. intros y. simpl.
  destruct (String.eqb y x), (mem y seen); reflexivity.
Qed.

Lemma filter_not_seen_known (x : string) (seen : list string) (l : list string) :
  mem x seen = true ->
  filter (fun y => negb (mem y seen)) (filter (fun y => negb (String.eqb y x)) l)
  = filter (fun y => negb (mem y seen)) l.
Proof.
  intros Hx. rewrite filter_and. apply filter_ext. intros y.
  destruct (String.eqb_spec y x) as [->|]; [now rewrite Hx | apply andb_true_r].
Qed.

Lemma filter_not_seen_snoc (x : string) (seen : list string) (l : list string) :
  filter (fun y => negb (mem y (seen ++ [x])%list)) l
  = filter (fun y => negb (mem y (x :: seen))) l.
Proof.
  apply filter_ext. intros y. rewrite mem_app. simpl.
  destruct (String.eqb y x), (mem y seen); reflexivity.
Qed.

Lemma filter_not_seen_nil (l : list string) :
  filter (fun y => negb (mem y [])) l = l.
Proof.
  induction l as [|x l IH]; [reflexivity|].
  change (x :: filter (fun y => negb (mem y [])) l = x :: l). now rewrite IH.
Qed.

Lemma filter_other_notin (x : string) (l : list string) :
  ~ In x l -> filter (fun y => negb (String.eqb y x)) l = l.
Proof.
  induction l as [|y l IH]; simpl; intros Hx; [reflexivity|].
  destruct (String.eqb_spec y x) as [->|Hne]; simpl.
  - exfalso. apply Hx. now left.
  - f_equal. apply IH. intros H. apply Hx. now right.
Qed.

(** ** The specification's deduplication *)

Lemma dedup_In (x : string) (l : list string) :
  In x (dedup_keep_first l) <-> In x l.
Proof.
  induction l as [|y l IH]; simpl; [reflexivity|].
  rewrite filter_In, IH. split.
  - intros [H|[H _]]; auto.
  - intros [H|H]; [now left|].
    destruct (String.eqb_spec x y) as [->|Hne]; [now left|].
    right. split; [exact H|reflexivity].
Qed.

Lemma dedup_NoDup (l : list string) : NoDup (dedup_keep_first l).
Proof.
  induction l as [|y l IH]; simpl; constructor.
  - rewrite filter_In. intros [_ H]. now rewrite String.eqb_refl in H.
  - now apply NoDup_filter.
Qed.

Lemma dedup_NoDup_id (l : list string) : NoDup l -> dedup_keep_first l = l.
Proof.
  induction 1 as [|x l Hx Hnd IH]; simpl; [reflexivity|].
  rewrite IH. f_equal. now apply filter_other_notin.
Qed.

(** ** The two passes of the Track renderer *)

Lemma append_new_dedup (l acc : list string) :
  append_new acc l
  = (acc ++ filter (fun y => negb (mem y acc)) (dedup_keep_first l))%list.
Proof.
  revert acc. induction l as [|x l IH]; intros acc; simpl.
  - now rewrite app_nil_r.
  - destruct (mem x acc) eqn:Hx; simpl; rewrite IH.
    + now rewrite filter_not_seen_known.
    + rewrite <- app_assoc. simpl. f_equal. f_equal.
      now rewrite filter_not_seen_snoc, filter_not_seen_step.
Qed.

Lemma unique_from_dedup (l seen : list string) :
  unique_from seen l = filter (fun y => negb (mem y seen)) (dedup_keep_first l).
Proof.
  revert seen. induction l as [|x l IH]; intros seen; simpl; [reflexivity|].
  destruct (mem x seen) eqn:Hx; simpl; rewrite IH.
  - now rewrite filter_not_seen_known.
  - now rewrite filter_not_seen_step.
Qed.

Lemma append_new_app (acc a b : list string) :
  append_new acc (a ++ b)%list = append_new (append_new acc a) b.
Proof.
  revert acc. induction a as [|x a IH]; intros acc; simpl; [reflexivity|].
  apply IH.
Qed.

Lemma collect_fold (f : located -> list string) (l : list located)
      (acc : list string) :
  fold_left (fun lines child => append_new lines (f child)) l acc
  = append_new acc (flat_map f l).
Proof.
  revert acc. induction l as [|x l IH]; intros acc; simpl; [reflexivity|].
  now rewrite IH, append_new_app.
Qed.

Lemma unique_lines_dedup (element : located) :
  unique_lines element
  = dedup_keep_first (flat_map candidate_lines (descendants element)).
Proof.
  unfold unique_lines, collect_lines.
  rewrite collect_fold, append_new_dedup, unique_from_dedup.
  simpl. rewrite !filter_not_seen_nil.
  apply dedup_NoDup_id, dedup_NoDup.
Qed.

(** A paragraph with text and without an image asks for its text. *)
Lemma candidate_lines_paragraph (child : located) :
  named "p" (loc_node child) = true ->
  nonempty (get_text_strip (loc_node child)) = true ->
  has_descendant "picture" (loc_node child) = false ->
  has_descendant "img" (loc_node child) = false ->
  candidate_lines child = [get_text_strip (loc_node child)].
Proof.
  intros Hp Ht Hpic Himg. unfold candidate_lines.
  destruct (loc_node child) as [s|k s|name attrs ks] eqn:Hn;
    [discriminate|discriminate|].
  simpl in Hp. apply String.eqb_eq in Hp. subst name.
  cbn [named]. simpl String.eqb. cbv iota.
  now rewrite Ht, Hpic, Himg.
Qed.

End RenderFacts.

(** C2 (as amended).  For every content region, the Track renderer emits the
    lines its elements ask for in document order, deduplicated by exact text
    match with the first occurrence kept: its lines are the specification's
    deduplication of the emitted lines, no line occurs twice, no emitted
    line is lost, and the output joins these lines with a blank line; in
    particular the text of a paragraph that is emitted occurs exactly once,
    however many paragraphs of the region have that text.  (The Course
    renderer emits its lines in document order and keeps duplicates.) *)
Theorem C2_track_lines_deduplicated (element : located) :
  let emitted := flat_map track_scraper.candidate_lines (descendants element) in
  track_scraper.unique_lines element = dedup_keep_first emitted /\
  track_scraper.convert_html_to_markdown element
  = join double_newline (dedup_keep_first emitted) /\
  NoDup (track_scraper.unique_lines element) /\
  (forall line, In line (track_scraper.unique_lines element) <-> In line emitted) /\
  (forall paragraph,
      In paragraph (descendants element) ->
      named "p" (loc_node paragraph) = true ->
      nonempty (get_text_strip (loc_node paragraph)) = true ->
      track_scraper.has_descendant "picture" (loc_node paragraph) = false ->
      track_scraper.has_descendant "img" (loc_node paragraph) = false ->
      count_occ string_dec (track_scraper.unique_lines element)
                (get_text_strip (loc_node paragraph)) = 1).
Proof.
  intros emitted.
  assert (Hu : track_scraper.unique_lines element = dedup_keep_first emitted)
    by apply RenderFacts.unique_lines_dedup.
  assert (Hnd : NoDup (track_scraper.unique_lines element))
    by (rewrite Hu; apply RenderFacts.dedup_NoDup).
  assert (Hin : forall line,
             In line (track_scraper.unique_lines element) <-> In line emitted)
    by (intros line; rewrite Hu; apply RenderFacts.dedup_In).
  split; [exact Hu|]. split.
  { unfold track_scraper.convert_html_to_markdown. now rewrite Hu. }
  split; [exact Hnd|]. split; [exact Hin|].
  intros paragraph Hp Hname Htext Hpic Himg.
  assert (Hline : In (get_text_strip (loc_node paragraph))
                     (track_scraper.unique_lines element)).
  { apply Hin. unfold emitted. apply in_flat_map. exists paragraph.
    split; [exact Hp|].
    rewrite (RenderFacts.candidate_lines_paragraph _ Hname Htext Hpic Himg).
    now left. }
  apply (count_occ_In string_dec) in Hline.
  pose proof (proj1 (NoDup_count_occ string_dec _) Hnd
                    (get_text_strip (loc_node paragraph))).
  lia.
Qed.

Lemma C2_track_lines_deduplicated_witness :
  count_occ string_dec
            (track_scraper.unique_lines (soup_of Samples.two_equal_paragraphs))
            "Same" = 1.
Proof.
  apply (proj2 (proj2 (proj2 (proj2
           (C2_track_lines_deduplicated (soup_of Samples.two_equal_paragraphs)))))
           (Located (Samples.p [Tag "b" [] [Text " Same "]]) false
                    [Samples.p [Text "Other"]])).
  - right. left. reflexivity.
  - reflexivity.
  - reflexivity.
  - reflexivity.
  - reflexivity.
Defined.

(** C2 as stated fails: on a region with two different paragraphs of the
    same trimmed text the Course renderer emits the text twice. *)
Lemma C2_counterexample_course_keeps_duplicates :
  course_scraper.markdown_lines Samples.two_equal_paragraphs
  = ["Same"; "Same"; "Other"] /\
  dedup_keep_first (course_scraper.markdown_lines Samples.two_equal_paragraphs)
  = ["Same"; "Other"] /\
  count_occ string_dec
            (course_scraper.markdown_lines Samples.two_equal_paragraphs)
            "Same" = 2.
Proof. repeat split. Qed.

(** C4, on the input where the code departs from it.  The first paragraph
    of the region has the text "Intro" and an image, the second one only an
    image, the third one the text "Outro".  The Track renderer emits a line
    for the third paragraph only: the paragraph with text is omitted.  The
    Course renderer emits "Intro" and "Outro". *)
Theorem C4_track_omits_text_paragraph_with_image :
  track_scraper.unique_lines (soup_of Samples.text_and_image_paragraph)
  = ["Outro"] /\
  track_scraper.convert_html_to_markdown
    (soup_of Samples.text_and_image_paragraph) = "Outro" /\
  course_scraper.markdown_lines Samples.text_and_image_paragraph
  = ["Intro"; "Outro"].
Proof. repeat split. Qed.

(** C5, on the input where the code departs from it.  The first metadata
    block of the page is an empty script and the second one a well-formed
    course: whatever [json.loads] does, [find_course_json_ld] leaves with a
    [TypeError] that its handler does not catch, and returns no course. *)
Theorem C5_empty_block_aborts_document (json_loads : string -> result json) :
  course_scraper.find_course_json_ld json_loads
    (soup_of Samples.page_with_empty_block) = Raise TypeError.
Proof. reflexivity. Qed.

(* ================================================================== *)
(** * The export (C8, C9)                                              *)
(* ================================================================== *)

Module ExportFacts.

Lemma course_skills_text (c : course_scraper.course_info) :
  course_scraper.skills_text c = join newline (course_scraper.ci_skills c).
Proof.
  unfold course_scraper.skills_text.
  destruct (course_scraper.ci_skills c); reflexivity.
Qed.

Lemma track_skills_str (t : track_scraper.track_info) :
  track_scraper.skills_str t = join ", " (track_scraper.ti_skills t).
Proof.
  unfold track_scraper.skills_str.
  destruct (track_scraper.ti_skills t); reflexivity.
Qed.

Lemma course_writerow (c : course_scraper.course_info) :
  Csv.writerow Csv.fieldnames (course_scraper.row_data c) = Ok (course_cells c).
Proof.
  unfold Csv.writerow, course_scraper.row_data, course_cells. cbn.
  rewrite course_skills_text.
  destruct (course_scraper.ci_source_url c); reflexivity.
Qed.

Lemma course_writerows (cs : list course_scraper.course_info) (written : Csv.table) :
  Csv.writerows written (map course_scraper.row_data cs)
  = Ok (written ++ map course_cells cs)%list.
Proof.
  revert written. induction cs as [|c cs IH]; intros written;
    cbn [map Csv.writerows].
  - now rewrite app_nil_r.
  - rewrite course_writerow, IH, <- app_assoc. reflexivity.
Qed.

Lemma course_export (cs : list course_scraper.course_info) :
  cs <> [] ->
  course_scraper.export_csv cs = Ok (Some (map JStr columns :: map course_cells cs)).
Proof.
  intros Hne. unfold course_scraper.export_csv.
  destruct cs as [|c cs]; [congruence|].
  now rewrite course_writerows.
Qed.

Lemma track_writerow (t : track_scraper.track_info) (d : list (string * json)) :
  track_scraper.row_of t = Ok d ->
  has_url t /\ Csv.writerow Csv.fieldnames d = Ok (track_cells t).
Proof.
  unfold track_scraper.row_of, has_url, track_cells.
  destruct (track_scraper.ti_url t) as [u|]; [|discriminate].
  intros H; inversion H; subst. split; [discriminate|].
  unfold Csv.writerow. cbn. now rewrite track_skills_str.
Qed.

Lemma track_row_of (t : track_scraper.track_info) :
  has_url t -> exists d, track_scraper.row_of t = Ok d.
Proof.
  unfold track_scraper.row_of, has_url.
  destruct (track_scraper.ti_url t); [eexists; reflexivity | congruence].
Qed.

Lemma write_tracks_ok (ts : list track_scraper.track_info) (written : Csv.table) :
  Forall has_url ts ->
  track_scraper.write_tracks written ts = Ok (written ++ map track_cells ts)%list.
Proof.
  intros H. revert written.
  induction H as [|t ts Ht _ IH]; intros written;
    cbn [map track_scraper.write_tracks].
  - now rewrite app_nil_r.
  - destruct (track_row_of Ht) as [d Hd]. rewrite Hd. cbn [bind].
    destruct (track_writerow _ Hd) as [_ ->]. cbn [bind].
    rewrite IH, <- app_assoc. reflexivity.
Qed.

Lemma write_tracks_has_url (ts : list track_scraper.track_info)
      (written table : Csv.table) :
  track_scraper.write_tracks written ts = Ok table -> Forall has_url ts.
Proof.
  revert written. induction ts as [|t ts IH]; intros written;
    cbn [track_scraper.write_tracks].
  - constructor.
  - intros H. apply bind_ok in H. destruct H as (d & Hd & H).
    destruct (track_writerow _ Hd) as [Hu Hw]. rewrite Hw in H. cbn [bind] in H.
    constructor; [exact Hu | exact (IH _ H)].
Qed.

(** The writer looks the cells up by name: the order in which a row
    dictionary was filled does not matter. *)
Lemma lookup_permutation (k : string) (d d' : list (string * json)) :
  NoDup (map fst d) -> Permutation d d' -> lookup k d = lookup k d'.
Proof.
  intros Hnd Hp. induction Hp as [|[k1 v1] d d' Hp IH
                                  |[k1 v1] [k2 v2] d|d1 d2 d3 Hp1 IH1 Hp2 IH2].
  - reflexivity.
  - simpl. inversion Hnd; subst. now rewrite IH.
  - simpl. destruct (String.eqb_spec k k2) as [->|]; [|reflexivity].
    destruct (String.eqb_spec k2 k1) as [->|]; [|reflexivity].
    exfalso. inversion Hnd; subst. apply H1. now left.
  - rewrite IH1 by assumption. apply IH2.
    eapply Permutation_NoDup; [|exact Hnd]. now apply Permutation_map.
Qed.

Lemma writerow_permutation (d d' : list (string * json)) :
  NoDup (map fst d) -> Permutation d d' ->
  Csv.writerow Csv.fieldnames d = Csv.writerow Csv.fieldnames d'.
Proof.
  intros Hnd Hp. unfold Csv.writerow.
  assert (Hall : forallb (fun kv => Csv.has_key Csv.fieldnames (fst kv)) d
                 = forallb (fun kv => Csv.has_key Csv.fieldnames (fst kv)) d').
  { apply eq_true_iff_eq. rewrite !forallb_forall. split; intros H x Hx.
    - apply H. eapply Permutation_in; [apply Permutation_sym; exact Hp|exact Hx].
    - apply H. eapply Permutation_in; [exact Hp|exact Hx]. }
  rewrite Hall.
  destruct (forallb _ d'); [|reflexivity].
  f_equal. apply map_ext. intros k.
  now rewrite (lookup_permutation k Hnd Hp).
Qed.

End ExportFacts.

(** C8 (as amended).  For every non-empty collection of N Course records
    the export writes one header row followed by N data rows, each of the
    twelve columns title, url, exercises, dialect, hours, kind, description,
    detailed_description, skills, purpose, level, price in that order, the
    i-th row holding the cells of the i-th record; [save_tracks_to_csv] does
    the same for every collection of Track records that [main] has
    completed with their URL; and the row that the writer produces does not
    depend on the order in which the row dictionary was filled.  (For an
    empty collection neither pipeline writes a table.) *)
Theorem C8_table_shape :
  (forall all_courses,
      all_courses <> [] ->
      exists rows,
        course_scraper.export_csv all_courses
        = Ok (Some (map JStr columns :: rows)) /\
        List.length rows = List.length all_courses /\
        Forall (fun r => List.length r = 12) rows /\
        forall i c, nth_error all_courses i = Some c ->
                    nth_error rows i = Some (course_cells c)) /\
  (forall tracks_data,
      Forall has_url tracks_data ->
      exists rows,
        track_scraper.save_tracks_to_csv tracks_data
        = Ok (map JStr columns :: rows) /\
        List.length rows = List.length tracks_data /\
        Forall (fun r => List.length r = 12) rows /\
        forall i t, nth_error tracks_data i = Some t ->
                    nth_error rows i = Some (track_cells t)) /\
  (forall d d',
      NoDup (map fst d) -> Permutation d d' ->
      Csv.writerow Csv.fieldnames d = Csv.writerow Csv.fieldnames d').
Proof.
  split; [|split].
  - intros cs Hne. exists (map course_cells cs).
    split; [now apply ExportFacts.course_export|].
    split; [apply length_map|]. split.
    + apply Forall_map, Forall_forall. reflexivity.
    + intros i c Hi. now apply map_nth_error.
  - intros ts Hts. exists (map track_cells ts).
    split; [exact (ExportFacts.write_tracks_ok _ Hts)|].
    split; [apply length_map|]. split.
    + apply Forall_map, Forall_forall. reflexivity.
    + intros i t Hi. now apply map_nth_error.
  - exact ExportFacts.writerow_permutation.
Qed.

Lemma C8_table_shape_witness :
  exists rows,
    course_scraper.export_csv [Samples.joins_record]
    = Ok (Some (map JStr columns :: rows)) /\
    List.length rows = 1 /\
    Forall (fun r => List.length r = 12) rows /\
    forall i c, nth_error [Samples.joins_record] i = Some c ->
                nth_error rows i = Some (course_cells c).
Proof.
  apply (proj1 C8_table_shape [Samples.joins_record]). discriminate.
Defined.

(** C8 as stated fails for N = 0: with no record, neither pipeline writes
    a table, so there is no header row. *)
Lemma C8_counterexample_no_table_for_no_record :
  course_scraper.export_csv [] = Ok None /\
  track_scraper.export_csv [] = Ok None.
Proof. split; reflexivity. Qed.

(** C9.  The Course export of a collection writes a table in which the row
    of every record has the kind "Course" and, under skills, the skills
    joined by a newline; [save_tracks_to_csv], on a collection that [main]
    has completed with the URLs, writes a table in which the row of every
    record has the kind "Track" and, under skills, the skills joined by a
    comma and a space; in both, the cell is the empty text when the record
    has no skills; and [save_tracks_to_csv] returns a table only for such a
    collection. *)
Theorem C9_skills_cell :
  (forall all_courses i c,
      nth_error all_courses i = Some c ->
      exists table r,
        course_scraper.export_csv all_courses = Ok (Some table) /\
        nth_error table (S i) = Some r /\
        cell "kind" r = Some (JStr "Course") /\
        cell "skills" r = Some (JStr (join newline (course_scraper.ci_skills c))) /\
        (course_scraper.ci_skills c = [] -> cell "skills" r = Some (JStr ""))) /\
  (forall tracks_data i t,
      Forall has_url tracks_data ->
      nth_error tracks_data i = Some t ->
      exists table r,
        track_scraper.save_tracks_to_csv tracks_data = Ok table /\
        nth_error table (S i) = Some r /\
        cell "kind" r = Some (JStr "Track") /\
        cell "skills" r = Some (JStr (join ", " (track_scraper.ti_skills t))) /\
        (track_scraper.ti_skills t = [] -> cell "skills" r = Some (JStr ""))) /\
  (forall tracks_data table,
      track_scraper.save_tracks_to_csv tracks_data = Ok table ->
      Forall has_url tracks_data).
Proof.
  split; [|split].
  - intros cs i c Hi.
    assert (Hne : cs <> []) by (intros ->; destruct i; discriminate Hi).
    exists (map JStr columns :: map course_cells cs), (course_cells c).
    split; [exact (ExportFacts.course_export Hne)|].
    split; [now apply map_nth_error|].
    split; [reflexivity|]. split; [reflexivity|].
    intros Hs. unfold cell. cbn. now rewrite Hs.
  - intros ts i t Hts Hi.
    exists (map JStr columns :: map track_cells ts), (track_cells t).
    split; [exact (ExportFacts.write_tracks_ok _ Hts)|].
    split; [now apply map_nth_error|].
    split; [reflexivity|]. split; [reflexivity|].
    intros Hs. unfold cell. cbn. now rewrite Hs.
  - intros ts table Hexp.
    exact (ExportFacts.write_tracks_has_url _ _ Hexp).
Qed.

Lemma C9_skills_cell_witness :
  (exists table r,
      course_scraper.export_csv [Samples.joins_record] = Ok (Some table) /\
      nth_error table 1 = Some r /\
      cell "kind" r = Some (JStr "Course") /\
      cell "skills" r
      = Some (JStr (join newline (course_scraper.ci_skills Samples.joins_record))) /\
      (course_scraper.ci_skills Samples.joins_record = [] ->
       cell "skills" r = Some (JStr ""))) /\
  (exists table r,
      track_scraper.save_tracks_to_csv [Samples.mysql_record] = Ok table /\
      nth_error table 1 = Some r /\
      cell "kind" r = Some (JStr "Track") /\
      cell "skills" r = Some (JStr "Joins, Subqueries") /\
      (track_scraper.ti_skills Samples.mysql_record = [] ->
       cell "skills" r = Some (JStr ""))).
Proof.
  split.
  - exact (proj1 C9_skills_cell [Samples.joins_record] 0 Samples.joins_record
                 eq_refl).
  - apply (proj1 (proj2 C9_skills_cell) [Samples.mysql_record] 0
                 Samples.mysql_record).
    + constructor; [unfold has_url; discriminate|constructor].
    + reflexivity.
Defined.

(* ================================================================== *)
(** * The records of one course document (C10)                         *)
(* ================================================================== *)

Module CourseFacts.
Import course_scraper.

Lemma extract_exercises_count_ok (soup : located) :
  exists r, extract_exercises_count soup = Ok r.
Proof.
  destruct (ExercisesFacts.scan_summary_items_spec (summary_items_of soup))
    as (r & Hr & _).
  exists r. exact Hr.
Qed.

Section Pipeline.

Variable json_loads : string -> result json.

(** A block that does not decode is passed over, with a diagnostic. *)
Lemma scan_scripts_undecodable (script : located) (rest : list located)
      (st : found) (text : string) :
  string_of (loc_node script) = Some text ->
  json_loads text = Raise JSONDecodeError ->
  scan_scripts json_loads (script :: rest) st
  = scan_scripts json_loads rest
                 (Found (courses st) (diagnostics st ++ [JSONDecodeError])%list).
Proof.
  intros Hs Hl. cbn [scan_scripts].
  unfold try_script, loads_script_string. rewrite Hs, Hl. reflexivity.
Qed.

Lemma records_of_document_ok (url : string) (html : node)
      (records : list course_info) :
  records_of_document json_loads url html = Ok records ->
  exists f exercises_count,
    find_course_json_ld json_loads (soup_of html) = Ok f /\
    extract_exercises_count (soup_of html) = Ok exercises_count /\
    records = map (complete url (extract_skills (soup_of html))
                            (extract_detailed_description (soup_of html))
                            exercises_count)
                  (courses f).
Proof.
  unfold records_of_document. intros H.
  apply bind_ok in H. destruct H as (f & Hf & H).
  destruct (extract_exercises_count_ok (soup_of html)) as [n Hn].
  exists f, n. split; [exact Hf|]. split; [exact Hn|].
  destruct (courses f) as [|c cs].
  - inversion H. reflexivity.
  - rewrite Hn in H. cbn [bind] in H. inversion H. reflexivity.
Qed.

End Pipeline.

End CourseFacts.

(** C10.  For every Course document that yields records, the skills, the
    detailed description and the number of exercises are each what the one
    extraction over the document returns, there is one record per Course
    object found in the metadata, and every record carries these same three
    values and the URL of the document. *)
Theorem C10_shared_fields (json_loads : string -> result json)
        (url : string) (html : node) (records : list course_scraper.course_info) :
  course_scraper.records_of_document json_loads url html = Ok records ->
  exists f exercises_count,
    course_scraper.find_course_json_ld json_loads (soup_of html) = Ok f /\
    List.length records = List.length (course_scraper.courses f) /\
    course_scraper.extract_exercises_count (soup_of html) = Ok exercises_count /\
    forall r,
      In r records ->
      course_scraper.ci_skills r = course_scraper.extract_skills (soup_of html) /\
      course_scraper.ci_detailed_description r
      = course_scraper.extract_detailed_description (soup_of html) /\
      course_scraper.ci_exercises_count r = exercises_count /\
      course_scraper.ci_source_url r = Some url.
Proof.
  intros H.
  destruct (CourseFacts.records_of_document_ok _ _ _ H)
    as (f & n & Hf & Hn & ->).
  exists f, n. split; [exact Hf|]. split; [apply length_map|].
  split; [exact Hn|].
  intros r Hr. apply in_map_iff in Hr. destruct Hr as (c & <- & _).
  repeat split.
Qed.

Lemma C10_shared_fields_witness :
  exists f exercises_count,
    course_scraper.find_course_json_ld Samples.course_loads
                                       (soup_of Samples.course_page) = Ok f /\
    2 = List.length (course_scraper.courses f) /\
    course_scraper.extract_exercises_count (soup_of Samples.course_page)
    = Ok exercises_count /\
    forall r,
      In r [ course_scraper.CourseInfo
               (JStr "Course") (JStr "Joins") JNull JNull JNull (Some 5%Z) JNull
               ["Joins"; "Subqueries"] "" (Some 12%Z) (Some "https://example.com/sql");
             course_scraper.CourseInfo
               (JStr "Course") (JStr "Subqueries") JNull JNull JNull (Some 10%Z) JNull
               ["Joins"; "Subqueries"] "" (Some 12%Z) (Some "https://example.com/sql") ] ->
      course_scraper.ci_skills r
      = course_scraper.extract_skills (soup_of Samples.course_page) /\
      course_scraper.ci_detailed_description r
      = course_scraper.extract_detailed_description (soup_of Samples.course_page) /\
      course_scraper.ci_exercises_count r = exercises_count /\
      course_scraper.ci_source_url r = Some "https://example.com/sql".
Proof.
  exact (C10_shared_fields Samples.course_loads "https://example.com/sql"
                           Samples.course_page eq_refl).
Defined.

(* ================================================================== *)
(** * Further properties: the metadata of a course document            *)
(* ================================================================== *)

Module MetadataFacts.
Import course_scraper Props.

Lemma decode_only_decode_errors (values : list json) :
  only_decode_errors (Samples.decode values).
Proof.
  intros text e. induction values as [|v values IH]; simpl.
  - intros H; inversion H; reflexivity.
  - destruct (String.eqb (Samples.json_text v) text); [discriminate|exact IH].
Qed.

Lemma bind_raise {A B : Type} (m : result A) (k : A -> result B) (e : exn) :
  bind m k = Raise e -> m = Raise e \/ exists a, m = Ok a /\ k a = Raise e.
Proof.
  destruct m as [a|e']; simpl; intros H.
  - right. exists a. split; [reflexivity|exact H].
  - left. inversion H. reflexivity.
Qed.

Lemma get_default_raise (k : string) (d v : json) (e : exn) :
  get_default k d v = Raise e -> e = AttributeError.
Proof. destruct v; simpl; congruence. Qed.

Lemma get_raise (k : string) (v : json) (e : exn) :
  get k v = Raise e -> e = AttributeError.
Proof. apply get_default_raise. Qed.

Lemma get_object (k : string) (fields : list (string * json)) :
  get k (JObj fields)
  = Ok (match lookup k fields with Some x => x | None => JNull end).
Proof. reflexivity. Qed.

Lemma workload_hours_raise (w : json) (e : exn) :
  workload_hours w = Raise e -> e = TypeError \/ e = ValueError.
Proof.
  destruct w as [|b|z|s|items|fields];
    try (unfold workload_hours; destruct (truthy _); intros H; left;
         congruence).
  rewrite DurationFacts.workload_hours_str.
  destruct (search_PTdH s) as [g|]; [|discriminate].
  unfold int_of_run. destruct (String.length g <=? max_str_digits)%nat;
    [discriminate|].
  intros H. right. congruence.
Qed.

(** Splitting a failed chain of binds, the failing step first. *)
Ltac raise_steps H :=
  repeat match type of H with
         | bind ?m ?k = Raise _ =>
             let a := fresh "v" in
             let Ha := fresh "Hv" in
             apply bind_raise in H; destruct H as [H|(a & Ha & H)]
         end.

(** The exception of a failed step of [extract_course_data]. *)
Ltac course_data_raise :=
  match goal with
  | H : get _ _ = Raise _ |- _ => left; eapply get_raise; exact H
  | H : workload_hours _ = Raise _ |- _ =>
      right; eapply workload_hours_raise; exact H
  | H : Ok _ = Raise _ |- _ => discriminate H
  | H : (if ?b then _ else _) = Raise _ |- _ =>
      destruct b; raise_steps H; course_data_raise
  | H : match ?v with _ => _ end = Raise _ |- _ =>
      destruct v; course_data_raise
  end.

Lemma extract_course_data_raise (item : json) (e : exn) :
  extract_course_data item = Raise e ->
  e = AttributeError \/ e = TypeError \/ e = ValueError.
Proof.
  unfold extract_course_data. intros H.
  raise_steps H; course_data_raise.
Qed.

Lemma extract_course_data_defaults (item : json) (c : course_info) :
  extract_course_data item = Ok c ->
  get "@type" item = Ok (ci_type c) /\
  ci_skills c = [] /\ ci_detailed_description c = "" /\
  ci_exercises_count c = None /\ ci_source_url c = None.
Proof.
  unfold extract_course_data. intros H.
  TrackFacts.bind_steps H. inversion H; subst; clear H. simpl.
  repeat split. assumption.
Qed.

Section Pipeline.

Variable json_loads : string -> result json.

(** One item: the list only grows, what is added is a fresh course, and an
    exception is an [AttributeError] or a [TypeError]. *)
Lemma append_if_course_step (item : json) (cs cs' : list course_info)
      (raised : option exn) :
  append_if_course item cs = (cs', raised) ->
  (exists added, cs' = (cs ++ added)%list /\ Forall fresh_course added) /\
  (forall e, raised = Some e ->
             e = AttributeError \/ e = TypeError \/ e = ValueError).
Proof.
  unfold append_if_course, is_course.
  destruct (get "@type" item) as [t|e0] eqn:Ht; cbn [bind].
  - destruct t as [| | |s| |];
      try (intros H; inversion H; subst; split;
           [exists []; split; [now rewrite app_nil_r|constructor]|discriminate]).
    destruct (String.eqb_spec s "Course") as [->|Hne].
    + destruct (extract_course_data item) as [c|e1] eqn:Hc; intros H;
        inversion H; subst; split; try discriminate.
      * exists [c]. split; [reflexivity|]. constructor; [|constructor].
        destruct (extract_course_data_defaults _ Hc) as (Hty & Hrest).
        split; [congruence|exact Hrest].
      * exists []. split; [now rewrite app_nil_r|constructor].
      * intros e He; inversion He; subst.
        eapply extract_course_data_raise; eassumption.
    + intros H; inversion H; subst; split;
        [exists []; split; [now rewrite app_nil_r|constructor]|discriminate].
  - intros H; inversion H; subst. split.
    + exists []. split; [now rewrite app_nil_r|constructor].
    + intros e He; inversion He; subst. left. eapply get_raise; eassumption.
Qed.

Lemma append_courses_step (items : list json) (cs cs' : list course_info)
      (raised : option exn) :
  append_courses items cs = (cs', raised) ->
  (exists added, cs' = (cs ++ added)%list /\ Forall fresh_course added) /\
  (forall e, raised = Some e ->
             e = AttributeError \/ e = TypeError \/ e = ValueError).
Proof.
  revert cs. induction items as [|item items IH]; intros cs; cbn [append_courses].
  - intros H; inversion H; subst. split; [|discriminate].
    exists []. split; [now rewrite app_nil_r|constructor].
  - destruct (append_if_course item cs) as [cs1 r1] eqn:H1.
    destruct (append_if_course_step _ _ H1) as ((a1 & -> & Ha1) & He1).
    destruct r1 as [e1|].
    + intros H; inversion H; subst. split; [|exact He1].
      exists a1. split; [reflexivity|exact Ha1].
    + intros H. destruct (IH _ H) as ((a2 & -> & Ha2) & He2).
      split; [|exact He2].
      exists (a1 ++ a2)%list. split; [now rewrite app_assoc|].
      apply Forall_app. split; assumption.
Qed.

Lemma try_script_step (script : node) (cs cs' : list course_info)
      (raised : option exn) :
  try_script json_loads script cs = (cs', raised) ->
  (exists added, cs' = (cs ++ added)%list /\ Forall fresh_course added) /\
  (forall e, raised = Some e ->
             e = AttributeError \/ e = TypeError \/ e = ValueError
             \/ exists text, json_loads text = Raise e).
Proof.
  unfold try_script, loads_script_string.
  destruct (string_of script) as [text|].
  - destruct (json_loads text) as [json_data|e0] eqn:Hl.
    + intros H.
      assert (Hstep :
                (exists added, cs' = (cs ++ added)%list /\ Forall fresh_course added) /\
                (forall e, raised = Some e ->
                           e = AttributeError \/ e = TypeError \/ e = ValueError)).
      { destruct json_data; try (eapply append_if_course_step; exact H).
        eapply append_courses_step; exact H. }
      destruct Hstep as [Hadd He]. split; [exact Hadd|].
      intros e Hr. destruct (He e Hr) as [?|[?|?]]; auto.
    + intros H; inversion H; subst. split.
      * exists []. split; [now rewrite app_nil_r|constructor].
      * intros e He; inversion He; subst. right; right; right. now exists text.
  - intros H; inversion H; subst. split.
    + exists []. split; [now rewrite app_nil_r|constructor].
    + intros e He; inversion He; subst. auto.
Qed.

Lemma scan_scripts_raise (scripts : list located) (st : found) (e : exn) :
  only_decode_errors json_loads ->
  scan_scripts json_loads scripts st = Raise e ->
  e = TypeError \/ e = ValueError.
Proof.
  intros Hloads. revert st.
  induction scripts as [|script scripts IH]; intros st; cbn [scan_scripts];
    [discriminate|].
  destruct (try_script json_loads (loc_node script) (courses st))
    as [cs' raised] eqn:Ht.
  destruct (try_script_step _ _ Ht) as [_ He].
  destruct raised as [e0|]; [|apply IH].
  destruct (He e0 eq_refl) as [ -> | [ -> | [ -> | (text & Htext) ] ] ].
  - cbn. apply IH.
  - cbn. intros H. left. congruence.
  - cbn. intros H. right. congruence.
  - rewrite (Hloads _ _ Htext). cbn. apply IH.
Qed.

Lemma scan_scripts_fresh (scripts : list located) (st f : found) :
  scan_scripts json_loads scripts st = Ok f ->
  Forall fresh_course (courses st) -> Forall fresh_course (courses f).
Proof.
  revert st. induction scripts as [|script scripts IH]; intros st;
    cbn [scan_scripts].
  - intros H; inversion H; subst. auto.
  - destruct (try_script json_loads (loc_node script) (courses st))
      as [cs' raised] eqn:Ht.
    destruct (try_script_step _ _ Ht) as [(added & -> & Hadded) _].
    intros H Hst.
    assert (Hcs : Forall fresh_course (courses st ++ added)%list)
      by (apply Forall_app; split; assumption).
    destruct raised as [e0|].
    + destruct (caught e0 _); [|discriminate]. exact (IH _ H Hcs).
    + exact (IH _ H Hcs).
Qed.

(** The courses do not depend on the diagnostics printed before. *)
Lemma scan_scripts_diagnostics (scripts : list located)
      (cs : list course_info) (d1 d2 : list exn) :
  courses_of (scan_scripts json_loads scripts (Found cs d1))
  = courses_of (scan_scripts json_loads scripts (Found cs d2)).
Proof.
  revert cs d1 d2. induction scripts as [|script scripts IH]; intros cs d1 d2;
    cbn [scan_scripts courses diagnostics]; [reflexivity|].
  destruct (try_script json_loads (loc_node script) cs) as [cs' [e0|]].
  - destruct (caught e0 _); [apply IH|reflexivity].
  - apply IH.
Qed.

Lemma try_script_undecodable (script : located) (cs : list course_info) :
  undecodable json_loads script = true ->
  try_script json_loads (loc_node script) cs = (cs, Some JSONDecodeError).
Proof.
  unfold undecodable, try_script, loads_script_string.
  destruct (string_of (loc_node script)) as [text|]; [|discriminate].
  destruct (json_loads text) as [v|[]]; try discriminate. reflexivity.
Qed.

Lemma scan_scripts_skip_undecodable (scripts : list located) (st : found) :
  courses_of (scan_scripts json_loads scripts st)
  = courses_of (scan_scripts json_loads
                  (filter (fun s => negb (undecodable json_loads s)) scripts) st).
Proof.
  revert st. induction scripts as [|script scripts IH]; intros st;
    [reflexivity|].
  cbn [filter].
  destruct (undecodable json_loads script) eqn:Hu; cbn [negb].
  - cbn [scan_scripts]. rewrite (try_script_undecodable _ _ Hu). cbn.
    rewrite <- IH. destruct st as [cs d]. apply scan_scripts_diagnostics.
  - cbn [scan_scripts].
    destruct (try_script json_loads (loc_node script) (courses st))
      as [cs' [e0|]].
    + destruct (caught e0 _); [apply IH|reflexivity].
    + apply IH.
Qed.

Lemma scan_scripts_all_undecodable (scripts : list located) (st : found) :
  forallb (undecodable json_loads) scripts = true ->
  scan_scripts json_loads scripts st
  = Ok (Found (courses st)
              (diagnostics st ++ repeat JSONDecodeError (List.length scripts))%list).
Proof.
  revert st. induction scripts as [|script scripts IH]; intros st; cbn.
  - intros _. rewrite app_nil_r. now destruct st.
  - intros H. apply andb_true_iff in H. destruct H as [Hu Hrest].
    rewrite (try_script_undecodable _ _ Hu). cbn.
    rewrite (IH _ Hrest). cbn. now rewrite <- app_assoc.
Qed.

End Pipeline.

End MetadataFacts.



(** X2.  Every course that [find_course_json_ld] returns was declared with
    the type "Course", and none has skills, a detailed description, a number
    of exercises or a source URL yet. *)
Theorem find_course_json_ld_courses_fresh
        (json_loads : string -> result json) (soup : located)
        (f : course_scraper.found) :
  course_scraper.find_course_json_ld json_loads soup = Ok f ->
  Forall Props.fresh_course (course_scraper.courses f).
Proof.
  intros H. unfold course_scraper.find_course_json_ld in H.
  apply (MetadataFacts.scan_scripts_fresh _ _ _ H). constructor.
Qed.

Lemma find_course_json_ld_courses_fresh_witness :
  Forall Props.fresh_course
         [ course_scraper.CourseInfo
             (JStr "Course") (JStr "Joins") JNull JNull JNull (Some 5%Z) JNull
             [] "" None None;
           course_scraper.CourseInfo
             (JStr "Course") (JStr "Subqueries") JNull JNull JNull (Some 10%Z) JNull
             [] "" None None ].
Proof.
  exact (find_course_json_ld_courses_fresh
           Samples.course_loads (soup_of Samples.course_page) eq_refl).
Defined.

(** X3.  The blocks whose text does not decode change nothing but the
    diagnostics: [find_course_json_ld] finds the same courses, or leaves
    with the same exception, as the scan of the other blocks alone. *)
Theorem find_course_json_ld_skips_undecodable
        (json_loads : string -> result json) (soup : located) :
  Props.courses_of (course_scraper.find_course_json_ld json_loads soup)
  = Props.courses_of
      (course_scraper.scan_scripts
         json_loads
         (filter (fun s => negb (Props.undecodable json_loads s))
                 (find_all is_json_ld_script soup))
         (course_scraper.Found [] [])).
Proof. apply MetadataFacts.scan_scripts_skip_undecodable. Qed.

(** X4.  When the text of every block of the document fails to decode,
    [find_course_json_ld] returns no course and one [JSONDecodeError]
    diagnostic per block, without an error. *)
Theorem find_course_json_ld_all_undecodable
        (json_loads : string -> result json) (soup : located) :
  forallb (Props.undecodable json_loads) (find_all is_json_ld_script soup) = true ->
  course_scraper.find_course_json_ld json_loads soup
  = Ok (course_scraper.Found
          []
          (repeat JSONDecodeError
                  (List.length (find_all is_json_ld_script soup)))).
Proof.
  intros H. unfold course_scraper.find_course_json_ld.
  now rewrite (MetadataFacts.scan_scripts_all_undecodable _ _ _ H).
Qed.

Lemma find_course_json_ld_all_undecodable_witness :
  course_scraper.find_course_json_ld
    (Samples.decode []) (soup_of MoreSamples.page_with_broken_block)
  = Ok (course_scraper.Found [] [JSONDecodeError; JSONDecodeError]).
Proof.
  exact (find_course_json_ld_all_undecodable
           (Samples.decode []) (soup_of MoreSamples.page_with_broken_block)
           eq_refl).
Defined.

(** X5.  The duration of a course follows a fallback chain: a top-level
    [timeRequired] that is truthy is the one that is parsed; otherwise the
    [courseWorkload] of the first entry of [hasCourseInstance] is parsed,
    when that is a non-empty list; otherwise the hours are absent. *)
Theorem extract_course_data_duration_fallback
        (json_ld_data : json) (info : course_scraper.course_info) :
  course_scraper.extract_course_data json_ld_data = Ok info ->
  exists top instances,
    get "timeRequired" json_ld_data = Ok top /\
    get "hasCourseInstance" json_ld_data = Ok instances /\
    (truthy top = true ->
     course_scraper.workload_hours top
     = Ok (course_scraper.ci_courseWorkload_hours info)) /\
    (truthy top = false ->
     forall first rest,
       instances = JArr (first :: rest) ->
       exists w,
         get "courseWorkload" first = Ok w /\
         course_scraper.workload_hours w
         = Ok (course_scraper.ci_courseWorkload_hours info)) /\
    (truthy top = false ->
     (forall first rest, instances <> JArr (first :: rest)) ->
     course_scraper.ci_courseWorkload_hours info = None).
Proof.
  intros H.
  destruct json_ld_data as [| | | | |fields]; try discriminate H.
  unfold course_scraper.extract_course_data in H.
  rewrite !MetadataFacts.get_object in H. cbn [bind] in H.
  TrackFacts.bind_steps H. inversion H; subst; clear H. cbn.
  lazymatch goal with
  | Hsel : (if negb (truthy ?t) then _ else _) = Ok ?w,
    Hw : course_scraper.workload_hours ?w = Ok ?h |- _ =>
      exists t;
      exists (match lookup "hasCourseInstance" fields with
              | Some x => x | None => JNull end);
      split; [reflexivity|]; split; [reflexivity|];
      destruct (truthy t) eqn:Ht; cbn [negb] in Hsel;
      (split; [|split]); try discriminate
  end.
  - intros _. lazymatch goal with Hsel : Ok _ = Ok _ |- _ =>
                            inversion Hsel; subst end. assumption.
  - intros _ first rest Hi.
    lazymatch goal with
    | Hsel : match ?i with _ => _ end = Ok ?w |- _ =>
        rewrite Hi in Hsel; exists w; split; assumption
    end.
  - intros _ Hnot.
    lazymatch goal with
    | Hsel : match ?i with _ => _ end = Ok ?w,
      Hw : course_scraper.workload_hours ?w = Ok ?h |- _ =>
        destruct i as [| | | |[|first rest]|];
        try (exfalso; exact (Hnot first rest eq_refl));
        inversion Hsel; subst;
        unfold course_scraper.workload_hours in Hw;
        match type of Hw with
        | context [truthy ?t0] =>
            replace (truthy t0) with false in Hw by (symmetry; assumption)
        end;
        inversion Hw; reflexivity
    end.
Qed.

Lemma extract_course_data_duration_fallback_witness :
  exists top instances,
    get "timeRequired" MoreSamples.instance_course = Ok top /\
    get "hasCourseInstance" MoreSamples.instance_course = Ok instances /\
    (truthy top = true ->
     course_scraper.workload_hours top = Ok (Some 8%Z)) /\
    (truthy top = false ->
     forall first rest,
       instances = JArr (first :: rest) ->
       exists w,
         get "courseWorkload" first = Ok w /\
         course_scraper.workload_hours w = Ok (Some 8%Z)) /\
    (truthy top = false ->
     (forall first rest, instances <> JArr (first :: rest)) ->
     Some 8%Z = None).
Proof.
  exact (extract_course_data_duration_fallback MoreSamples.instance_course eq_refl).
Defined.

(** X6.  The price and the currency of a course are both read from
    [offers] when that is truthy, under the keys [price] and
    [priceCurrency], and are both null otherwise. *)
Theorem extract_course_data_offers
        (json_ld_data : json) (info : course_scraper.course_info) :
  course_scraper.extract_course_data json_ld_data = Ok info ->
  exists offers,
    get "offers" json_ld_data = Ok offers /\
    (truthy offers = true ->
     get "price" offers = Ok (course_scraper.ci_price info) /\
     get "priceCurrency" offers = Ok (course_scraper.ci_currency info)) /\
    (truthy offers = false ->
     course_scraper.ci_price info = JNull /\
     course_scraper.ci_currency info = JNull).
Proof.
  intros H.
  destruct json_ld_data as [| | | | |fields]; try discriminate H.
  unfold course_scraper.extract_course_data in H.
  rewrite !MetadataFacts.get_object in H. cbn [bind] in H.
  TrackFacts.bind_steps H. inversion H; subst; clear H. cbn.
  lazymatch goal with
  | Hsel : (if truthy ?o then _ else _) = Ok ?pc |- _ =>
      exists o; split; [reflexivity|];
      destruct (truthy o); (split; try discriminate); intros _
  end.
  - lazymatch goal with Hsel : bind _ _ = Ok _ |- _ =>
                    TrackFacts.bind_steps Hsel; inversion Hsel; subst end.
    split; assumption.
  - lazymatch goal with Hsel : Ok _ = Ok _ |- _ => inversion Hsel; subst end.
    split; reflexivity.
Qed.

Lemma extract_course_data_offers_witness :
  truthy MoreSamples.priced_offers = true /\
  get "price" MoreSamples.priced_offers = Ok (JInt 39) /\
  get "priceCurrency" MoreSamples.priced_offers = Ok (JStr "USD").
Proof.
  destruct (extract_course_data_offers MoreSamples.priced_course eq_refl)
    as (offers & Hoffers & Htruthy & _).
  cbn in Hoffers. injection Hoffers as <-.
  split; [reflexivity|]. exact (Htruthy eq_refl).
Defined.

(* ================================================================== *)
(** * Further properties: from the URLs to the table                   *)
(* ================================================================== *)

Module LoopFacts.
Import Props.

Section Courses.

Variable json_loads : string -> result json.
Variable fetch : string -> option node.

Lemma records_of_document_from (url : string) (html : node)
      (records : list course_scraper.course_info) :
  course_scraper.records_of_document json_loads url html = Ok records ->
  Forall (fun r => course_scraper.ci_source_url r = Some url
                   /\ course_scraper.ci_type r = JStr "Course") records.
Proof.
  intros H.
  destruct (CourseFacts.records_of_document_ok _ _ _ H) as (f & n & Hf & _ & ->).
  assert (Hfresh : Forall fresh_course (course_scraper.courses f)).
  { unfold course_scraper.find_course_json_ld in Hf.
    apply (MetadataFacts.scan_scripts_fresh _ _ _ Hf). constructor. }
  apply Forall_map. revert Hfresh. apply Forall_impl.
  intros c (Hty & _). split; [reflexivity|exact Hty].
Qed.

Lemma fetch_all_grows (urls : list string)
      (all_courses result_ : list course_scraper.course_info) :
  course_scraper.fetch_all json_loads fetch urls all_courses = Ok result_ ->
  exists added,
    result_ = (all_courses ++ added)%list /\
    Forall (fun r => exists url,
                course_scraper.ci_source_url r = Some url /\
                In url urls /\ fetched fetch url = true /\
                course_scraper.ci_type r = JStr "Course") added.
Proof.
  revert all_courses.
  induction urls as [|url urls IH]; intros acc; cbn [course_scraper.fetch_all].
  - intros H; inversion H; subst. exists []. split; [now rewrite app_nil_r|].
    constructor.
  - destruct (fetch url) as [html|] eqn:Hfetch.
    + intros H. apply bind_ok in H. destruct H as (records & Hrec & H).
      destruct (IH _ H) as (added & -> & Hadded).
      exists (records ++ added)%list. split; [now rewrite app_assoc|].
      apply Forall_app. split.
      * pose proof (records_of_document_from _ _ Hrec) as Hfrom.
        revert Hfrom. apply Forall_impl. intros r [Hu Hty].
        exists url. repeat split; try assumption; [now left|].
        unfold fetched. now rewrite Hfetch.
      * revert Hadded. apply Forall_impl.
        intros r (u & Hu & Hin & Hf & Hty). exists u.
        repeat split; try assumption. now right.
    + intros H. destruct (IH _ H) as (added & -> & Hadded).
      exists added. split; [reflexivity|].
      revert Hadded. apply Forall_impl.
      intros r (u & Hu & Hin & Hf & Hty). exists u.
      repeat split; try assumption. now right.
Qed.

Lemma fetch_all_app (urls1 urls2 : list string)
      (all_courses : list course_scraper.course_info) :
  course_scraper.fetch_all json_loads fetch (urls1 ++ urls2) all_courses
  = bind (course_scraper.fetch_all json_loads fetch urls1 all_courses)
         (course_scraper.fetch_all json_loads fetch urls2).
Proof.
  revert all_courses.
  induction urls1 as [|url urls1 IH]; intros acc;
    cbn [app course_scraper.fetch_all]; [reflexivity|].
  destruct (fetch url) as [html|]; [|apply IH].
  destruct (course_scraper.records_of_document json_loads url html)
    as [records|e]; cbn [bind]; [apply IH|reflexivity].
Qed.

Lemma fetch_all_fetched_only (urls : list string)
      (all_courses : list course_scraper.course_info) :
  course_scraper.fetch_all json_loads fetch urls all_courses
  = course_scraper.fetch_all json_loads fetch (filter (fetched fetch) urls)
                             all_courses.
Proof.
  revert all_courses.
  induction urls as [|url urls IH]; intros acc; [reflexivity|].
  cbn [filter]. unfold fetched at 1.
  cbn [course_scraper.fetch_all].
  destruct (fetch url) as [html|] eqn:Hfetch; [|apply IH].
  cbn [course_scraper.fetch_all]. rewrite Hfetch.
  destruct (course_scraper.records_of_document json_loads url html)
    as [records|e]; cbn [bind]; [apply IH|reflexivity].
Qed.

End Courses.

Section Tracks.

Variable json_loads : string -> result json.
Variable fetch : string -> option node.

Lemma collect_tracks_grows (urls : list string)
      (tracks_data result_ : list track_scraper.track_info) :
  track_scraper.collect_tracks json_loads fetch urls tracks_data = Ok result_ ->
  exists added,
    result_ = (tracks_data ++ added)%list /\
    Forall (fun t => exists url,
                track_scraper.ti_url t = Some url /\
                In url urls /\ fetched fetch url = true) added.
Proof.
  revert tracks_data.
  induction urls as [|url urls IH]; intros acc;
    cbn [track_scraper.collect_tracks].
  - intros H; inversion H; subst. exists []. split; [now rewrite app_nil_r|].
    constructor.
  - assert (Hrest : forall acc',
               track_scraper.collect_tracks json_loads fetch urls acc' = Ok result_ ->
               exists added,
                 result_ = (acc' ++ added)%list /\
                 Forall (fun t => exists u,
                             track_scraper.ti_url t = Some u /\
                             In u (url :: urls) /\ fetched fetch u = true) added).
    { intros acc' H. destruct (IH _ H) as (added & -> & Hadded).
      exists added. split; [reflexivity|].
      revert Hadded. apply Forall_impl.
      intros t (u & Hu & Hin & Hf). exists u. repeat split; try assumption.
      now right. }
    destruct (fetch url) as [content|] eqn:Hfetch; [|apply Hrest].
    intros H. apply bind_ok in H. destruct H as ([info|] & Hinfo & H);
      [|exact (Hrest _ H)].
    destruct (Hrest _ H) as (added & -> & Hadded).
    exists (track_scraper.with_url url info :: added).
    split; [now rewrite <- app_assoc|].
    constructor; [|exact Hadded].
    exists url. repeat split; [now left|].
    unfold fetched. now rewrite Hfetch.
Qed.

End Tracks.

End LoopFacts.

(** X7.  The records of a document cannot be built exactly when its
    metadata cannot be read: [records_of_document] leaves with an exception
    exactly when [find_course_json_ld] does, with the same one; and when the
    metadata yields no Course object the document gives no record. *)
Theorem records_of_document_fails_with_metadata
        (json_loads : string -> result json) (url : string) (html : node) :
  (forall e,
      course_scraper.records_of_document json_loads url html = Raise e
      <-> course_scraper.find_course_json_ld json_loads (soup_of html) = Raise e) /\
  (forall f,
      course_scraper.find_course_json_ld json_loads (soup_of html) = Ok f ->
      course_scraper.courses f = [] ->
      course_scraper.records_of_document json_loads url html = Ok []).
Proof.
  unfold course_scraper.records_of_document.
  destruct (course_scraper.find_course_json_ld json_loads (soup_of html))
    as [f|e0]; cbn [bind].
  - destruct (CourseFacts.extract_exercises_count_ok (soup_of html)) as [n Hn].
    rewrite Hn. cbn [bind]. split.
    + intros e. destruct (course_scraper.courses f); split; discriminate.
    + intros f' Hf' Hnil. inversion Hf'; subst. now rewrite Hnil.
  - split; [|discriminate].
    intros e. split; intros H; inversion H; reflexivity.
Qed.

Lemma records_of_document_fails_with_metadata_witness :
  course_scraper.records_of_document
    Samples.course_loads "https://example.com/empty" (Samples.page [] [])
  = Ok [].
Proof.
  exact (proj2 (records_of_document_fails_with_metadata
                  Samples.course_loads "https://example.com/empty"
                  (Samples.page [] []))
               _ eq_refl eq_refl).
Defined.

(** X8.  The main loop of the Course script only appends: the courses
    collected before stay in front, and every record that is added is a
    Course that carries the URL of a document of the list whose request
    succeeded. *)
Theorem fetch_all_appends_fetched_courses
        (json_loads : string -> result json) (fetch : string -> option node)
        (urls : list string)
        (all_courses result_ : list course_scraper.course_info) :
  course_scraper.fetch_all json_loads fetch urls all_courses = Ok result_ ->
  exists added,
    result_ = (all_courses ++ added)%list /\
    Forall (fun r => exists url,
                course_scraper.ci_source_url r = Some url /\
                In url urls /\ Props.fetched fetch url = true /\
                course_scraper.ci_type r = JStr "Course") added.
Proof. apply LoopFacts.fetch_all_grows. Qed.

Lemma fetch_all_appends_fetched_courses_witness :
  exists added,
    [ course_scraper.CourseInfo
        (JStr "Course") (JStr "Joins") JNull JNull JNull (Some 5%Z) JNull
        ["Joins"; "Subqueries"] "" (Some 12%Z) (Some "https://example.com/sql");
      course_scraper.CourseInfo
        (JStr "Course") (JStr "Subqueries") JNull JNull JNull (Some 10%Z) JNull
        ["Joins"; "Subqueries"] "" (Some 12%Z) (Some "https://example.com/sql") ]
    = ([] ++ added)%list /\
    Forall (fun r => exists url,
                course_scraper.ci_source_url r = Some url /\
                In url MoreSamples.site_urls /\
                Props.fetched MoreSamples.course_site url = true /\
                course_scraper.ci_type r = JStr "Course") added.
Proof.
  exact (fetch_all_appends_fetched_courses
           Samples.course_loads MoreSamples.course_site MoreSamples.site_urls []
           eq_refl).
Defined.

(** X9.  A URL whose request fails contributes nothing and changes
    nothing: the main loop of the Course script gives the same result on
    the list of URLs and on the list without the URLs that cannot be
    fetched. *)
Theorem fetch_all_ignores_failed_requests
        (json_loads : string -> result json) (fetch : string -> option node)
        (urls : list string) (all_courses : list course_scraper.course_info) :
  course_scraper.fetch_all json_loads fetch urls all_courses
  = course_scraper.fetch_all json_loads fetch
                             (filter (Props.fetched fetch) urls) all_courses.
Proof. apply LoopFacts.fetch_all_fetched_only. Qed.

(** X10.  Processing a list of URLs in two parts, the second part
    starting from what the first collected, is processing the whole list:
    the documents are handled one after the other, in the order of the
    URLs, and an exception in the first part stops the run. *)
Theorem fetch_all_in_two_parts
        (json_loads : string -> result json) (fetch : string -> option node)
        (urls1 urls2 : list string)
        (all_courses : list course_scraper.course_info) :
  course_scraper.fetch_all json_loads fetch (urls1 ++ urls2) all_courses
  = bind (course_scraper.fetch_all json_loads fetch urls1 all_courses)
         (course_scraper.fetch_all json_loads fetch urls2).
Proof. apply LoopFacts.fetch_all_app. Qed.

(** X11.  Whatever the Course script collects from its URLs and is not
    empty can be exported: the table has the header and one row per
    record, and every row has the kind "Course" and, under url, the URL of a
    document of the list. *)
Theorem fetch_all_then_export
        (json_loads : string -> result json) (fetch : string -> option node)
        (urls : list string) (all_courses : list course_scraper.course_info) :
  course_scraper.fetch_all json_loads fetch urls [] = Ok all_courses ->
  all_courses <> [] ->
  exists rows,
    course_scraper.export_csv all_courses = Ok (Some (map JStr columns :: rows)) /\
    List.length rows = List.length all_courses /\
    Forall (fun r => cell "kind" r = Some (JStr "Course")
                     /\ exists url, In url urls /\ cell "url" r = Some (JStr url))
           rows.
Proof.
  intros Hrun Hne.
  destruct (LoopFacts.fetch_all_grows _ _ _ _ Hrun) as (added & Heq & Hadded).
  simpl in Heq. subst added.
  exists (map course_cells all_courses).
  split; [now apply ExportFacts.course_export|].
  split; [apply length_map|].
  apply Forall_map. revert Hadded. apply Forall_impl.
  intros r (url & Hu & Hin & _). split; [reflexivity|].
  exists url. split; [exact Hin|]. unfold cell. cbn. now rewrite Hu.
Qed.

Lemma fetch_all_then_export_witness :
  exists rows,
    course_scraper.export_csv
      [ course_scraper.CourseInfo
          (JStr "Course") (JStr "Joins") JNull JNull JNull (Some 5%Z) JNull
          ["Joins"; "Subqueries"] "" (Some 12%Z) (Some "https://example.com/sql");
        course_scraper.CourseInfo
          (JStr "Course") (JStr "Subqueries") JNull JNull JNull (Some 10%Z) JNull
          ["Joins"; "Subqueries"] "" (Some 12%Z) (Some "https://example.com/sql") ]
    = Ok (Some (map JStr columns :: rows)) /\
    List.length rows = 2 /\
    Forall (fun r => cell "kind" r = Some (JStr "Course")
                     /\ exists url, In url MoreSamples.site_urls
                                    /\ cell "url" r = Some (JStr url))
           rows.
Proof.
  apply (fetch_all_then_export
           Samples.course_loads MoreSamples.course_site MoreSamples.site_urls).
  - reflexivity.
  - discriminate.
Defined.

(** X12.  Whatever [main] of the Track script collects from its URLs can
    be saved: [save_tracks_to_csv] does not raise, and the table has the
    header and one row per track, every row of the kind "Track" with, under
    url, the URL of a document of the list that could be fetched. *)
Theorem collect_tracks_then_save
        (json_loads : string -> result json) (fetch : string -> option node)
        (urls : list string) (tracks_data : list track_scraper.track_info) :
  track_scraper.collect_tracks json_loads fetch urls [] = Ok tracks_data ->
  exists rows,
    track_scraper.save_tracks_to_csv tracks_data = Ok (map JStr columns :: rows) /\
    List.length rows = List.length tracks_data /\
    Forall (fun r => cell "kind" r = Some (JStr "Track")
                     /\ exists url, In url urls
                                    /\ Props.fetched fetch url = true
                                    /\ cell "url" r = Some (JStr url))
           rows.
Proof.
  intros Hrun.
  destruct (LoopFacts.collect_tracks_grows _ _ _ _ Hrun) as (added & Heq & Hadded).
  simpl in Heq. subst added.
  exists (map track_cells tracks_data). split.
  - apply ExportFacts.write_tracks_ok. revert Hadded. apply Forall_impl.
    intros t (url & Hu & _). unfold has_url. congruence.
  - split; [apply length_map|].
    apply Forall_map. revert Hadded. apply Forall_impl.
    intros t (url & Hu & Hin & Hf). split; [reflexivity|].
    exists url. repeat split; try assumption. unfold cell. cbn. now rewrite Hu.
Qed.

Lemma collect_tracks_then_save_witness :
  exists rows,
    track_scraper.save_tracks_to_csv
      [ track_scraper.TrackInfo
          (JStr "Advanced MySQL Practice Track") (JStr "Practice MySQL") ""
          (JStr "") (JStr "40") (JStr "") "MySQL" "practice" []
          [JStr "https://example.com/c1"] (Some "https://example.com/mysql") ]
    = Ok (map JStr columns :: rows) /\
    List.length rows = 1 /\
    Forall (fun r => cell "kind" r = Some (JStr "Track")
                     /\ exists url,
                       In url ["https://example.com/gone"; "https://example.com/mysql"]
                       /\ Props.fetched MoreSamples.track_site url = true
                       /\ cell "url" r = Some (JStr url))
           rows.
Proof.
  exact (collect_tracks_then_save
           Samples.track_loads MoreSamples.track_site
           ["https://example.com/gone"; "https://example.com/mysql"] eq_refl).
Defined.

(* ================================================================== *)
(** * Further properties: the track record                             *)
(* ================================================================== *)

Module TrackMoreFacts.
Import track_scraper Props.

Lemma append_empty_r (a : string) : a ++ "" = a.
Proof. induction a; simpl; congruence. Qed.

Lemma length_app (a b : string) :
  String.length (a ++ b) = String.length a + String.length b.
Proof. induction a; simpl; congruence. Qed.

(** A run of digits is copied by [replace] when what is replaced does not
    start with a digit. *)
Lemma replace_from_digits (o : ascii) (old' new ds rest : string) (fuel : nat) :
  is_digit o = false -> all_digits ds = true ->
  replace_from (String.length ds + fuel) (String o old') new (ds ++ rest)
  = ds ++ replace_from fuel (String o old') new rest.
Proof.
  intros Ho. induction ds as [|d ds IH]; intros Hd; [reflexivity|].
  simpl in Hd. apply andb_true_iff in Hd. destruct Hd as [Hd1 Hd2].
  cbn [String.length append Nat.add replace_from prefix].
  destruct (ascii_dec o d) as [->|_]; [congruence|].
  now rewrite (IH Hd2).
Qed.

Lemma replace_PT_hours (ds : string) :
  all_digits ds = true ->
  replace "H" "" (replace "PT" "" ("PT" ++ ds ++ "H")) = ds.
Proof.
  intros Hd.
  assert (H1 : replace "PT" "" ("PT" ++ ds ++ "H") = ds ++ "H").
  { unfold replace.
    change (String.length ("PT" ++ ds ++ "H"))
      with (S (S (String.length (ds ++ "H")))).
    cbn [replace_from append].
    assert (Hp : prefix "PT" (String "P" (String "T" (ds ++ "H"))) = true)
      by (apply prefix_app; exists (ds ++ "H"); reflexivity).
    rewrite Hp. cbn [String.length drop Nat.sub append].
    rewrite Nat.sub_0_r, length_app.
    change (String.length "H") with 1.
    rewrite (@replace_from_digits "P"%char "T" "" ds "H" 1 eq_refl Hd).
    reflexivity. }
  rewrite H1. unfold replace.
  rewrite length_app.
  change (String.length "H") with 1.
  rewrite (@replace_from_digits "H"%char "" "" ds "H" 1 eq_refl Hd).
  cbn. apply append_empty_r.
Qed.

(** ** The exceptions of the pieces *)

Lemma str_in_raise (needle : string) (v : json) (e : exn) :
  str_in needle v = Raise e -> e = TypeError.
Proof. destruct v; simpl; congruence. Qed.

Lemma str_replace_raise (old new : string) (v : json) (e : exn) :
  str_replace old new v = Raise e -> e = AttributeError.
Proof. destruct v; simpl; congruence. Qed.

Lemma subscript_raise (k : string) (v : json) (e : exn) :
  subscript k v = Raise e -> e = KeyError \/ e = TypeError.
Proof.
  destruct v as [| | | | |fields]; simpl;
    try (intros H; inversion H; now auto).
  destruct (lookup k fields); intros H; inversion H; auto.
Qed.

Lemma iterate_raise (v : json) (e : exn) :
  iterate v = Raise e -> e = TypeError.
Proof. destruct v; simpl; congruence. Qed.

Lemma course_urls_of_raise (parts : list json) (e : exn) :
  course_urls_of parts = Raise e -> e = KeyError \/ e = TypeError.
Proof.
  induction parts as [|part parts IH]; cbn [course_urls_of]; [discriminate|].
  intros H. apply MetadataFacts.bind_raise in H.
  destruct H as [H|(b & Hb & H)].
  - right. eapply str_in_raise; exact H.
  - destruct b; [|exact (IH H)].
    apply MetadataFacts.bind_raise in H. destruct H as [H|(u & Hu & H)].
    + eapply subscript_raise; exact H.
    + apply MetadataFacts.bind_raise in H. destruct H as [H|(us & Hus & H)].
      * exact (IH H).
      * discriminate H.
Qed.

Lemma dialect_of_raise (v : json) (e : exn) :
  dialect_of v = Raise e -> e = TypeError.
Proof.
  unfold dialect_of. intros H.
  repeat (apply MetadataFacts.bind_raise in H;
          destruct H as [H|([] & _ & H)];
          [eapply str_in_raise; exact H | discriminate H |]).
  discriminate H.
Qed.

Lemma purpose_of_raise (v : json) (e : exn) :
  purpose_of v = Raise e -> e = TypeError.
Proof.
  unfold purpose_of. intros H.
  apply MetadataFacts.bind_raise in H. destruct H as [H|(b & _ & H)].
  - eapply str_in_raise; exact H.
  - discriminate H.
Qed.

Lemma dialect_of_values (v : json) (d : string) :
  dialect_of v = Ok d ->
  d = "MySQL" \/ d = "PostgreSQL" \/ d = "SQL Server" \/ d = "Standard SQL".
Proof.
  unfold dialect_of. intros H.
  apply bind_ok in H. destruct H as ([] & _ & H); [inversion H; auto|].
  apply bind_ok in H. destruct H as ([] & _ & H); [inversion H; auto|].
  apply bind_ok in H. destruct H as ([] & _ & H); inversion H; auto.
Qed.

Lemma purpose_of_values (v : json) (p : string) :
  purpose_of v = Ok p -> p = "practice" \/ p = "learn".
Proof.
  unfold purpose_of. intros H.
  apply bind_ok in H. destruct H as ([] & _ & H); inversion H; auto.
Qed.

(** The URLs of parts that are objects. *)
Lemma course_urls_of_objects (parts : list json) :
  Forall is_object parts ->
  course_urls_of parts = Ok (flat_map url_if_present parts).
Proof.
  induction 1 as [|part parts [fields ->] _ IH]; [reflexivity|].
  cbn [course_urls_of flat_map str_in bind].
  unfold url_if_present at 1. cbn [field subscript].
  destruct (lookup "url" fields) as [u|]; cbn [bind]; rewrite IH; reflexivity.
Qed.

Section Pipeline.

Variable json_loads : string -> result json.

Lemma track_info_of_script_raise (soup : located) (script_tag : node) (e : exn) :
  only_decode_errors json_loads ->
  track_info_of_script json_loads soup script_tag = Raise e ->
  e = JSONDecodeError \/ e = AttributeError \/ e = KeyError \/ e = TypeError.
Proof.
  intros Hloads H. unfold track_info_of_script in H.
  MetadataFacts.raise_steps H;
    try (right; left; eapply MetadataFacts.get_default_raise; eassumption);
    try (right; left; eapply str_replace_raise; eassumption);
    try (right; right; right; eapply str_in_raise; eassumption);
    try (right; right; right; eapply dialect_of_raise; eassumption);
    try (right; right; right; eapply purpose_of_raise; eassumption);
    try discriminate.
  - left. eapply Hloads; eassumption.
  - match goal with
    | H : (if ?b then _ else _) = Raise _ |- _ => destruct b; [|discriminate H]
    end.
    MetadataFacts.raise_steps H; right; right.
    + eapply subscript_raise; eassumption.
    + right. eapply iterate_raise; eassumption.
    + eapply course_urls_of_raise; eassumption.
Qed.

(** What a record that was built tells about the block it was built
    from. *)
Lemma track_info_of_script_fields (soup : located) (script_tag : node)
      (info : track_info) :
  track_info_of_script json_loads soup script_tag = Ok info ->
  exists fields,
    json_loads (get_text script_tag) = Ok (JObj fields) /\
    ti_url info = None /\
    (exists offers,
        get_default "offers" (JObj []) (JObj fields) = Ok offers /\
        get_default "price" (JStr "") offers = Ok (ti_price info)) /\
    get_default "educationalLevel" (JStr "") (JObj fields) = Ok (ti_level info) /\
    (exists time_required without_pt,
        get_default "timeRequired" (JStr "") (JObj fields) = Ok time_required /\
        str_replace "PT" "" time_required = Ok without_pt /\
        str_replace "H" "" without_pt = Ok (ti_hours info)) /\
    (lookup "hasPart" fields = None -> ti_course_urls info = []) /\
    (forall parts,
        lookup "hasPart" fields = Some parts ->
        exists items,
          iterate parts = Ok items /\
          course_urls_of items = Ok (ti_course_urls info)).
Proof.
  unfold track_info_of_script. intros H.
  apply bind_ok in H. destruct H as (json_data & Hl & H).
  destruct json_data as [| | | | |fields]; try discriminate H.
  exists fields. split; [exact Hl|].
  TrackFacts.bind_steps H. inversion H; subst; clear H. cbn [ti_url ti_price
    ti_level ti_hours ti_course_urls].
  split; [reflexivity|].
  split; [eexists; split; eassumption|].
  split; [assumption|].
  split;
    [match goal with
     | H1 : get_default "timeRequired" _ _ = Ok ?t,
       H2 : str_replace "PT" "" ?t = Ok ?w,
       H3 : str_replace "H" "" ?w = Ok _ |- _ =>
         exists t, w; split; [exact H1|split; [exact H2|exact H3]]
     end|].
  match goal with
  | Hin : str_in "hasPart" (JObj fields) = Ok ?b,
    Hsel : (if ?b then _ else _) = Ok _ |- _ =>
      cbn [str_in] in Hin; inversion Hin; subst b; clear Hin;
      destruct (lookup "hasPart" fields) as [parts|] eqn:Hp
  end.
  - split; [discriminate|]. intros parts' Hparts. inversion Hparts; subst parts'.
    match goal with
    | Hsel : bind _ _ = Ok _ |- _ =>
        cbn [subscript] in Hsel; rewrite Hp in Hsel; cbn [bind] in Hsel;
        apply bind_ok in Hsel; destruct Hsel as (items & Hit & Hsel);
        exists items; split; assumption
    end.
  - split; [|discriminate]. intros _.
    match goal with Hsel : Ok _ = Ok _ |- _ => inversion Hsel; reflexivity end.
Qed.

End Pipeline.

End TrackMoreFacts.

(** C1 (as amended).  The Course duration parser of lines 44-48 searches
    the duration for [PT], digits, [H] and does not require the whole
    string to match.  It returns null for an absent duration, and on a
    string exactly when no run of digits stands between [PT] and [H]
    anywhere in it.  When there is such a run, it reads the leftmost one:
    it returns the value of its digits when they are at most 4300 (the
    limit of [int]) and leaves with a [ValueError] when they are more; in
    particular on a string that is exactly [PT], digits, [H].  The Track
    pipeline (line 184) does not parse: the hours of a record are the
    duration text with every [PT] and every [H] removed, which for [PT],
    digits, [H] is the digits as text. *)
Theorem C1_workload_hours_search (s : string) :
  course_scraper.workload_hours JNull = Ok None /\
  (course_scraper.workload_hours (JStr s) = Ok None
   <-> ~ exists ds, Occurs_PTdH ds s) /\
  (forall h, course_scraper.workload_hours (JStr s) = Ok (Some h) ->
             exists ds, First_PTdH ds s /\ Occurs_PTdH ds s
                        /\ h = int_of_digits_from 0 ds) /\
  ((exists ds, Occurs_PTdH ds s) ->
   exists ds,
     First_PTdH ds s /\
     course_scraper.workload_hours (JStr s)
     = if (String.length ds <=? max_str_digits)%nat
       then Ok (Some (int_of_digits_from 0 ds))
       else Raise ValueError) /\
  (forall ds,
      First_PTdH ds s ->
      ((String.length ds <= max_str_digits)%nat ->
       course_scraper.workload_hours (JStr s)
       = Ok (Some (int_of_digits_from 0 ds))) /\
      ((max_str_digits < String.length ds)%nat ->
       course_scraper.workload_hours (JStr s) = Raise ValueError)) /\
  (forall ds,
      Is_PTdH ds s ->
      (String.length ds <= max_str_digits)%nat ->
      course_scraper.workload_hours (JStr s)
      = Ok (Some (int_of_digits_from 0 ds))) /\
  (forall json_loads html info,
      track_scraper.extract_track_info json_loads html = Ok (Some info) ->
      exists second fields,
        nth_error (find_all is_json_ld_script (soup_of html)) 1 = Some second /\
        json_loads (get_text (loc_node second)) = Ok (JObj fields) /\
        (lookup "timeRequired" fields = Some (JStr s) ->
         track_scraper.ti_hours info
         = JStr (replace "H" "" (replace "PT" "" s)) /\
         (forall ds, Is_PTdH ds s -> track_scraper.ti_hours info = JStr ds))).
Proof.
  pose proof (DurationFacts.workload_hours_str s) as Hw.
  assert (Hfirst : forall ds,
             First_PTdH ds s ->
             course_scraper.workload_hours (JStr s)
             = if (String.length ds <=? max_str_digits)%nat
               then Ok (Some (int_of_digits_from 0 ds))
               else Raise ValueError).
  { intros ds Hds. rewrite Hw, (DurationFacts.First_PTdH_search Hds).
    unfold int_of_run.
    now destruct (String.length ds <=? max_str_digits)%nat. }
  split; [reflexivity|]. split; [|split; [|split; [|split; [|split]]]].
  - rewrite Hw. destruct (search_PTdH s) as [g|] eqn:Hg.
    + split.
      * unfold int_of_run.
        destruct (String.length g <=? max_str_digits)%nat; discriminate.
      * intros Hno. exfalso. apply Hno. exists g. now apply search_PTdH_some.
    + split; [|reflexivity]. intros _ [ds Hds].
      destruct (Occurs_PTdH_search Hds) as (g & Hg' & _). congruence.
  - intros h Hh. rewrite Hw in Hh.
    destruct (search_PTdH s) as [g|] eqn:Hg; [|discriminate].
    exists g. split; [now apply DurationFacts.search_PTdH_first|].
    split; [now apply search_PTdH_some|].
    unfold int_of_run in Hh.
    destruct (String.length g <=? max_str_digits)%nat; congruence.
  - intros [ds Hds]. destruct (Occurs_PTdH_search Hds) as (g & Hg & _).
    exists g. pose proof (DurationFacts.search_PTdH_first _ Hg) as Hf.
    split; [exact Hf|exact (Hfirst _ Hf)].
  - intros ds Hds. rewrite (Hfirst _ Hds). split; intros Hlen.
    + apply Nat.leb_le in Hlen. now rewrite Hlen.
    + apply Nat.leb_gt in Hlen. now rewrite Hlen.
  - intros ds Hds Hlen. rewrite (Hfirst _ (DurationFacts.Is_PTdH_First Hds)).
    apply Nat.leb_le in Hlen. now rewrite Hlen.
  - intros json_loads html info Hinfo.
    destruct (TrackFacts.extract_track_info_some _ _ Hinfo) as (second & Hn & Hs).
    destruct (TrackMoreFacts.track_info_of_script_fields _ _ _ Hs)
      as (fields & Hl & _ & _ & _ & (tr & wp & Htr & Hwp & Hh) & _).
    exists second, fields. split; [exact Hn|]. split; [exact Hl|].
    intros Hs'. cbn [get_default] in Htr. rewrite Hs' in Htr.
    assert (tr = JStr s) as -> by congruence.
    cbn [str_replace] in Hwp.
    assert (wp = JStr (replace "PT" "" s)) as -> by congruence.
    cbn [str_replace] in Hh.
    assert (Hhours : track_scraper.ti_hours info
                     = JStr (replace "H" "" (replace "PT" "" s)))
      by congruence.
    split; [exact Hhours|].
    intros ds (-> & _ & Hd). rewrite Hhours.
    now rewrite TrackMoreFacts.replace_PT_hours.
Qed.

Lemma C1_workload_hours_search_witness :
  (exists ds,
      First_PTdH ds "about PT5H" /\
      course_scraper.workload_hours (JStr "about PT5H")
      = if (String.length ds <=? max_str_digits)%nat
        then Ok (Some (int_of_digits_from 0 ds))
        else Raise ValueError) /\
  (exists info,
      track_scraper.extract_track_info Samples.track_loads Samples.track_page
      = Ok (Some info) /\
      track_scraper.ti_hours info = JStr "40" /\
      (forall ds, Is_PTdH ds "PT40H" -> track_scraper.ti_hours info = JStr ds)).
Proof.
  split.
  - apply (proj1 (proj2 (proj2 (proj2 (C1_workload_hours_search "about PT5H"))))).
    exists "5", "about ", "".
    split; [reflexivity|]. split; [discriminate|reflexivity].
  - eexists. split; [reflexivity|].
    destruct (proj2 (proj2 (proj2 (proj2 (proj2 (proj2
                (C1_workload_hours_search "PT40H"))))))
                Samples.track_loads Samples.track_page _ eq_refl)
      as (second & fields & Hsecond & Hfields & Hhours).
    vm_compute in Hsecond. injection Hsecond as <-.
    vm_compute in Hfields. injection Hfields as <-.
    exact (Hhours eq_refl).
Defined.

(** C1 as stated fails: [PT10H30M] is not [PT], digits, [H], and yet the
    parser returns 10, the hours of a longer duration. *)
Lemma C1_counterexample_partial_parse :
  (~ exists ds, Is_PTdH ds "PT10H30M") /\
  course_scraper.workload_hours (JStr "PT10H30M") = Ok (Some 10%Z).
Proof.
  split; [|reflexivity].
  intros [ds (Hs & _ & Hd)].
  destruct ds as [|c1 ds]; [discriminate Hs|].
  destruct ds as [|c2 ds]; [discriminate Hs|].
  destruct ds as [|c3 ds]; [discriminate Hs|].
  simpl in Hs. inversion Hs; subst.
  simpl in Hd. discriminate Hd.
Qed.



(** X14.  Whatever the name of a track is (a text, a list, an object), the
    dialect of a record is one of "MySQL", "PostgreSQL", "SQL Server" and
    "Standard SQL", and its purpose is "practice" or "learn". *)
Theorem extract_track_info_dialect_purpose_values
        (json_loads : string -> result json) (html : node)
        (info : track_scraper.track_info) :
  track_scraper.extract_track_info json_loads html = Ok (Some info) ->
  (track_scraper.ti_dialect info = "MySQL"
   \/ track_scraper.ti_dialect info = "PostgreSQL"
   \/ track_scraper.ti_dialect info = "SQL Server"
   \/ track_scraper.ti_dialect info = "Standard SQL") /\
  (track_scraper.ti_purpose info = "practice"
   \/ track_scraper.ti_purpose info = "learn").
Proof.
  intros H.
  destruct (TrackFacts.extract_track_info_some _ _ H) as (second & _ & Hs).
  destruct (TrackFacts.track_info_of_script_ok _ _ _ Hs)
    as (jd & _ & _ & _ & Hd & Hp & _).
  split.
  - exact (TrackMoreFacts.dialect_of_values _ Hd).
  - exact (TrackMoreFacts.purpose_of_values _ Hp).
Qed.

Lemma extract_track_info_dialect_purpose_values_witness :
  exists info,
    track_scraper.extract_track_info Samples.track_loads Samples.track_page
    = Ok (Some info) /\
    (track_scraper.ti_dialect info = "MySQL"
     \/ track_scraper.ti_dialect info = "PostgreSQL"
     \/ track_scraper.ti_dialect info = "SQL Server"
     \/ track_scraper.ti_dialect info = "Standard SQL") /\
    (track_scraper.ti_purpose info = "practice"
     \/ track_scraper.ti_purpose info = "learn").
Proof.
  eexists. split; [reflexivity|].
  exact (extract_track_info_dialect_purpose_values
           Samples.track_loads Samples.track_page eq_refl).
Defined.

(** X15.  The hours of a track are a text, not a number: for a record
    built from a block whose [timeRequired] is [PT], digits, [H], the hours
    are exactly the digits as written; for a block without [timeRequired]
    they are the empty text. *)
Theorem extract_track_info_hours
        (json_loads : string -> result json) (html : node)
        (info : track_scraper.track_info) :
  track_scraper.extract_track_info json_loads html = Ok (Some info) ->
  exists second fields,
    nth_error (find_all is_json_ld_script (soup_of html)) 1 = Some second /\
    json_loads (get_text (loc_node second)) = Ok (JObj fields) /\
    (forall ds,
        lookup "timeRequired" fields = Some (JStr ("PT" ++ ds ++ "H")) ->
        all_digits ds = true ->
        track_scraper.ti_hours info = JStr ds) /\
    (lookup "timeRequired" fields = None ->
     track_scraper.ti_hours info = JStr "").
Proof.
  intros H.
  destruct (TrackFacts.extract_track_info_some _ _ H) as (second & Hn & Hs).
  destruct (TrackMoreFacts.track_info_of_script_fields _ _ _ Hs)
    as (fields & Hl & _ & _ & _ & (tr & wp & Htr & Hwp & Hh) & _).
  exists second, fields. split; [exact Hn|]. split; [exact Hl|].
  cbn [get_default] in Htr. split.
  - intros ds Hds Hd. rewrite Hds in Htr.
    assert (tr = JStr ("PT" ++ ds ++ "H")) as -> by congruence.
    cbn [str_replace] in Hwp.
    assert (wp = JStr (replace "PT" "" ("PT" ++ ds ++ "H"))) as -> by congruence.
    cbn [str_replace] in Hh.
    assert (track_scraper.ti_hours info
            = JStr (replace "H" "" (replace "PT" "" ("PT" ++ ds ++ "H")))) as ->
        by congruence.
    now rewrite TrackMoreFacts.replace_PT_hours.
  - intros Hnone. rewrite Hnone in Htr. inversion Htr; subst tr.
    cbn in Hwp. inversion Hwp; subst wp. cbn in Hh. injection Hh as Hh.
    now rewrite <- Hh.
Qed.

Lemma extract_track_info_hours_witness :
  exists second fields,
    nth_error (find_all is_json_ld_script (soup_of Samples.track_page)) 1
    = Some second /\
    Samples.track_loads (get_text (loc_node second)) = Ok (JObj fields) /\
    (forall ds,
        lookup "timeRequired" fields = Some (JStr ("PT" ++ ds ++ "H")) ->
        all_digits ds = true ->
        JStr "40" = JStr ds) /\
    (lookup "timeRequired" fields = None -> JStr "40" = JStr "").
Proof.
  exact (extract_track_info_hours Samples.track_loads Samples.track_page eq_refl).
Defined.

(** X16.  The course URLs of a track are the [url] values of the members
    of [hasPart] that have one, in the order of the members, when [hasPart]
    is a list of objects; a block without [hasPart] gives no course URL. *)
Theorem extract_track_info_course_urls
        (json_loads : string -> result json) (html : node)
        (info : track_scraper.track_info) :
  track_scraper.extract_track_info json_loads html = Ok (Some info) ->
  exists second fields,
    nth_error (find_all is_json_ld_script (soup_of html)) 1 = Some second /\
    json_loads (get_text (loc_node second)) = Ok (JObj fields) /\
    (forall parts,
        lookup "hasPart" fields = Some (JArr parts) ->
        Forall Props.is_object parts ->
        track_scraper.ti_course_urls info = flat_map Props.url_if_present parts) /\
    (lookup "hasPart" fields = None -> track_scraper.ti_course_urls info = []).
Proof.
  intros H.
  destruct (TrackFacts.extract_track_info_some _ _ H) as (second & Hn & Hs).
  destruct (TrackMoreFacts.track_info_of_script_fields _ _ _ Hs)
    as (fields & Hl & _ & _ & _ & _ & Hnone & Hsome).
  exists second, fields. split; [exact Hn|]. split; [exact Hl|].
  split; [|exact Hnone].
  intros parts Hp Hobj. destruct (Hsome _ Hp) as (items & Hit & Hurls).
  cbn in Hit. inversion Hit; subst items.
  rewrite (TrackMoreFacts.course_urls_of_objects Hobj) in Hurls.
  now inversion Hurls.
Qed.

Lemma extract_track_info_course_urls_witness :
  exists second fields,
    nth_error (find_all is_json_ld_script (soup_of Samples.track_page)) 1
    = Some second /\
    Samples.track_loads (get_text (loc_node second)) = Ok (JObj fields) /\
    (forall parts,
        lookup "hasPart" fields = Some (JArr parts) ->
        Forall Props.is_object parts ->
        [JStr "https://example.com/c1"] = flat_map Props.url_if_present parts) /\
    (lookup "hasPart" fields = None -> [JStr "https://example.com/c1"] = []).
Proof.
  exact (extract_track_info_course_urls
           Samples.track_loads Samples.track_page eq_refl).
Defined.

(** X17.  A document whose second block decodes to a well-formed track (an
    object whose name and duration, if present, are texts, whose offers, if
    present, are an object, and whose parts, if present, are a list of
    objects) always gives a record. *)
Theorem extract_track_info_well_formed
        (json_loads : string -> result json) (html : node)
        (second : located) (block : json) :
  nth_error (find_all is_json_ld_script (soup_of html)) 1 = Some second ->
  json_loads (get_text (loc_node second)) = Ok block ->
  Props.well_formed_track block ->
  exists info, track_scraper.extract_track_info json_loads html = Ok (Some info).
Proof.
  intros Hn Hl ([fields ->] & Hname & Hoffers & Htime & Hparts).
  cbn [Props.field] in *.
  unfold track_scraper.extract_track_info.
  assert (Hlen : (List.length (find_all is_json_ld_script (soup_of html)) <? 2)%nat
                 = false).
  { apply Nat.ltb_ge.
    destruct (find_all is_json_ld_script (soup_of html)) as [|a [|b l]];
      try discriminate Hn. simpl. lia. }
  rewrite Hlen, Hn.
  assert (Hok : exists info,
             track_scraper.track_info_of_script json_loads (soup_of html)
                                                (loc_node second) = Ok info).
  { unfold track_scraper.track_info_of_script. rewrite Hl.
    cbn [bind get_default str_in].
    assert (Hdp : exists name d p,
               match lookup "name" fields with Some x => x | None => JStr "" end
               = name /\
               track_scraper.dialect_of name = Ok d /\
               track_scraper.purpose_of name = Ok p).
    { destruct Hname as [ -> | [s ->] ].
      - destruct (TrackFacts.dialect_of_title "") as (d & Hd & _).
        destruct (TrackFacts.purpose_of_title "") as (p & Hp & _).
        now exists (JStr ""), d, p.
      - destruct (TrackFacts.dialect_of_title s) as (d & Hd & _).
        destruct (TrackFacts.purpose_of_title s) as (p & Hp & _).
        now exists (JStr s), d, p. }
    destruct Hdp as (name & d & p & -> & -> & ->). cbn [bind].
    assert (Hprice : exists price,
               get_default "price" (JStr "")
                           match lookup "offers" fields with
                           | Some x => x | None => JObj [] end = Ok price).
    { destruct Hoffers as [ -> | [o ->] ]; eexists; reflexivity. }
    destruct Hprice as (price & ->). cbn [bind].
    assert (Hhours : exists hours,
               bind (str_replace "PT" ""
                       match lookup "timeRequired" fields with
                       | Some x => x | None => JStr "" end)
                    (str_replace "H" "") = Ok hours).
    { destruct Htime as [ -> | [s ->] ]; eexists; reflexivity. }
    destruct Hhours as (hours & Hhours).
    destruct (str_replace "PT" "" _) as [without_pt|]; [|discriminate Hhours].
    cbn [bind] in Hhours |- *. rewrite Hhours. cbn [bind].
    destruct Hparts as [Hp | (parts & Hp & Hobj) ]; rewrite Hp; cbn [bind].
    - eexists; reflexivity.
    - cbn [track_scraper.subscript]. rewrite Hp.
      cbn [bind track_scraper.iterate].
      rewrite (TrackMoreFacts.course_urls_of_objects Hobj). cbn [bind].
      eexists; reflexivity. }
  destruct Hok as (info & ->). now exists info.
Qed.

Lemma extract_track_info_well_formed_witness :
  exists info,
    track_scraper.extract_track_info Samples.track_loads Samples.track_page
    = Ok (Some info).
Proof.
  eapply (@extract_track_info_well_formed
            Samples.track_loads Samples.track_page _ Samples.mysql_track).
  - reflexivity.
  - reflexivity.
  - split; [eexists; reflexivity|].
    split; [right; eexists; reflexivity|].
    split; [left; reflexivity|].
    split; [right; eexists; reflexivity|].
    right. eexists. split; [reflexivity|].
    constructor; [eexists; reflexivity|constructor].
Defined.

(* ================================================================== *)
(** * Further properties: rendering, counting, the sections            *)
(* ================================================================== *)

Module RenderMoreFacts.

Lemma append_nonempty_l (a b : string) : a <> "" -> a ++ b <> "".
Proof. destruct a; [congruence|discriminate]. Qed.

Lemma append_nonempty_r (a b : string) : b <> "" -> a ++ b <> "".
Proof. destruct a; [trivial|discriminate]. Qed.

Lemma nonempty_true (s : string) : nonempty s = true -> s <> "".
Proof.
  unfold nonempty. destruct (String.eqb_spec s ""); [discriminate|trivial].
Qed.

(** Every line of a flattened list of guarded singletons is not empty. *)
Lemma in_flat_map_guarded {A : Type} (l : list A) (guard : A -> bool)
      (line : A -> string) (x : string) :
  (forall a, guard a = true -> line a <> "") ->
  In x (flat_map (fun a => if guard a then [line a] else []) l) -> x <> "".
Proof.
  intros Hline Hin. apply in_flat_map in Hin. destruct Hin as (a & _ & Ha).
  destruct (guard a) eqn:Hg; [|destruct Ha].
  destruct Ha as [<-|[]]. now apply Hline.
Qed.

Lemma track_candidate_lines_nonempty (child : located) (line : string) :
  In line (track_scraper.candidate_lines child) -> line <> "".
Proof.
  unfold track_scraper.candidate_lines.
  destruct (named "h2" (loc_node child)).
  { destruct (nonempty _); [|intros []]. intros [<-|[]]. discriminate. }
  destruct (named "h3" (loc_node child)).
  { destruct (nonempty _); [|intros []]. intros [<-|[]]. discriminate. }
  destruct (named "p" (loc_node child)).
  { destruct (nonempty (get_text_strip (loc_node child))) eqn:Ht;
      [|intros []].
    match goal with
    | |- context [if ?b then _ else _] => destruct b; [|intros []]
    end.
    intros [<-|[]]. now apply nonempty_true. }
  destruct (named "ul" (loc_node child) && negb (loc_in_li child)).
  { unfold track_scraper.list_items.
    apply (in_flat_map_guarded
             _ (fun ili => nonempty (get_text_strip (snd ili)))
             (fun ili => "- " ++ track_scraper.item_text (snd ili))).
    intros a _. discriminate. }
  destruct (named "ol" (loc_node child) && negb (loc_in_li child));
    [|intros []].
  unfold track_scraper.list_items.
  apply (in_flat_map_guarded
           _ (fun ili => nonempty (get_text_strip (snd ili)))
           (fun ili => (str_of_int (Z.of_nat (fst ili)) ++ ". ")
                         ++ track_scraper.item_text (snd ili))).
  intros a _. apply append_nonempty_l, append_nonempty_r. discriminate.
Qed.

Lemma course_lines_of_child_nonempty (child : node) (line : string) :
  In line (course_scraper.lines_of_child child) -> line <> "".
Proof.
  unfold course_scraper.lines_of_child.
  destruct child as [s|k s|name attrs ks].
  { destruct (nonempty _) eqn:Ht; [|intros []].
    intros [<-|[]]. now apply nonempty_true. }
  { destruct (nonempty _) eqn:Ht; [|intros []].
    intros [<-|[]]. now apply nonempty_true. }
  destruct (String.eqb name "h2"); [intros [<-|[]]; discriminate|].
  destruct (String.eqb name "h3"); [intros [<-|[]]; discriminate|].
  destruct (String.eqb name "p").
  { destruct (nonempty (get_text_strip (Tag name attrs ks))) eqn:Ht;
      [|intros []].
    cbn [negb andb]. rewrite andb_false_r. cbn [negb].
    intros [<-|[]]. now apply nonempty_true. }
  destruct (String.eqb name "ul").
  { apply (in_flat_map_guarded
             _ (fun li => nonempty (get_text_strip (loc_node li)))
             (fun li => "- " ++ get_text_strip (loc_node li))).
    intros a _. discriminate. }
  destruct (String.eqb name "ol").
  { apply (in_flat_map_guarded
             _ (fun ili => nonempty (get_text_strip (loc_node (snd ili))))
             (fun ili => str_of_int (Z.of_nat (fst ili)) ++ ". "
                           ++ get_text_strip (loc_node (snd ili)))).
    intros a _. apply append_nonempty_r. discriminate. }
  destruct (nonempty _) eqn:Ht; [|intros []].
  intros [<-|[]]. now apply nonempty_true.
Qed.

Lemma int_of_digits_from_nonneg (s : string) (acc : Z) :
  (0 <= acc)%Z -> (0 <= int_of_digits_from acc s)%Z.
Proof.
  revert acc. induction s as [|c s IH]; intros acc Hacc;
    cbn [int_of_digits_from]; [exact Hacc|].
  apply IH. unfold digit_value.
  pose proof (Nat2Z.is_nonneg (code c - 48)) as Hc.
  revert Hc. generalize (Z.of_nat (code c - 48)). intros z Hz. lia.
Qed.

Lemma find_with_rest_none (p : node -> bool) (l : list located) :
  (forall x, In x l -> p (loc_node x) = false) -> find_with_rest p l = None.
Proof.
  induction l as [|x l IH]; intros H; simpl; [reflexivity|].
  rewrite (H x (or_introl eq_refl)). apply IH. intros y Hy. apply H. now right.
Qed.

Lemma find_heading_none (label pat : string) (soup : located) :
  (forall x, In x (descendants soup) -> named "h2" (loc_node x) = false) ->
  find_heading label pat soup = None.
Proof.
  intros H. unfold find_heading. cbv zeta.
  rewrite !find_with_rest_none; try reflexivity;
    intros x Hx; unfold h2_with_string; now rewrite (H x Hx).
Qed.

Lemma workload_hours_some (w : json) (h : Z) :
  course_scraper.workload_hours w = Ok (Some h) ->
  exists s, w = JStr s /\ (0 <= h)%Z.
Proof.
  destruct w as [|b|z|s|items|fields]; intros H.
  - discriminate H.
  - destruct b; discriminate H.
  - unfold course_scraper.workload_hours in H.
    destruct (truthy (JInt z)); discriminate H.
  - exists s. split; [reflexivity|].
    rewrite DurationFacts.workload_hours_str in H.
    destruct (search_PTdH s) as [g|]; [|discriminate H].
    unfold int_of_run in H.
    destruct (String.length g <=? max_str_digits)%nat; inversion H.
    apply int_of_digits_from_nonneg. lia.
  - destruct items; discriminate H.
  - destruct fields; discriminate H.
Qed.

End RenderMoreFacts.

(** X18.  The last pass of the Track renderer, over the set [seen], never
    removes a line: the loop before it has already refused every line that
    was present. *)
Theorem track_final_pass_keeps_every_line (element : located) :
  track_scraper.unique_lines element = track_scraper.collect_lines element.
Proof.
  rewrite RenderFacts.unique_lines_dedup.
  unfold track_scraper.collect_lines.
  rewrite RenderFacts.collect_fold, RenderFacts.append_new_dedup.
  simpl. now rewrite RenderFacts.filter_not_seen_nil.
Qed.

(** X19.  Neither renderer ever emits an empty line: every line of the
    Track renderer and every line of the Course renderer has at least one
    character. *)
Theorem renderers_emit_no_empty_line :
  (forall element line,
      In line (track_scraper.unique_lines element) -> line <> "") /\
  (forall element line,
      In line (course_scraper.markdown_lines element) -> line <> "").
Proof.
  split.
  - intros element line Hin.
    rewrite RenderFacts.unique_lines_dedup in Hin.
    apply RenderFacts.dedup_In, in_flat_map in Hin.
    destruct Hin as (child & _ & Hline).
    exact (RenderMoreFacts.track_candidate_lines_nonempty _ Hline).
  - intros element line Hin.
    unfold course_scraper.markdown_lines in Hin.
    apply in_flat_map in Hin. destruct Hin as (child & _ & Hline).
    exact (RenderMoreFacts.course_lines_of_child_nonempty _ Hline).
Qed.

Lemma renderers_emit_no_empty_line_witness :
  In "Other" (track_scraper.unique_lines (soup_of Samples.two_equal_paragraphs))
  /\ "Other" <> "".
Proof.
  assert (Hin : In "Other" (track_scraper.unique_lines
                              (soup_of Samples.two_equal_paragraphs)))
    by (right; left; reflexivity).
  split; [exact Hin|].
  exact (proj1 renderers_emit_no_empty_line _ _ Hin).
Defined.

(** X20.  The number of exercises that is extracted is never negative. *)
Theorem extract_exercises_count_nonnegative (soup : located) (n : Z) :
  course_scraper.extract_exercises_count soup = Ok (Some n) -> (0 <= n)%Z.
Proof.
  intros H.
  destruct (ExercisesFacts.scan_summary_items_spec
              (course_scraper.summary_items_of soup)) as (r & Hr & Hsome & _).
  unfold course_scraper.extract_exercises_count in H.
  assert (r = Some n) as -> by congruence.
  destruct (proj1 (Hsome n) eq_refl) as (_ & l & _ & _ & _ & Hy & _).
  destruct Hy as (v & _ & _ & _ & ->).
  apply RenderMoreFacts.int_of_digits_from_nonneg. lia.
Qed.

Lemma extract_exercises_count_nonnegative_witness :
  course_scraper.extract_exercises_count (soup_of Samples.course_page)
  = Ok (Some 12%Z) /\ (0 <= 12)%Z.
Proof.
  split; [reflexivity|].
  exact (extract_exercises_count_nonnegative (soup_of Samples.course_page) eq_refl).
Defined.

(** X21.  The hours of a course, when present, are never negative. *)
Theorem extract_course_data_hours_nonnegative
        (json_ld_data : json) (info : course_scraper.course_info) (h : Z) :
  course_scraper.extract_course_data json_ld_data = Ok info ->
  course_scraper.ci_courseWorkload_hours info = Some h ->
  (0 <= h)%Z.
Proof.
  intros H Hh. unfold course_scraper.extract_course_data in H.
  TrackFacts.bind_steps H. inversion H; subst; clear H. cbn in Hh. subst.
  match goal with
  | Hw : course_scraper.workload_hours _ = Ok (Some h) |- _ =>
      destruct (RenderMoreFacts.workload_hours_some _ Hw) as (s & _ & Hnn)
  end.
  exact Hnn.
Qed.

Lemma extract_course_data_hours_nonnegative_witness :
  (exists info,
      course_scraper.extract_course_data MoreSamples.instance_course = Ok info /\
      course_scraper.ci_courseWorkload_hours info = Some 8%Z) /\
  (0 <= 8)%Z.
Proof.
  split; [eexists; split; reflexivity|].
  exact (extract_course_data_hours_nonnegative
           MoreSamples.instance_course eq_refl eq_refl).
Defined.

(** X22.  A document without any [h2] element has no section to locate:
    both scrapers return no skill and an empty detailed description for
    it. *)
Theorem no_heading_no_section (soup : located) :
  (forall x, In x (descendants soup) -> named "h2" (loc_node x) = false) ->
  course_scraper.extract_skills soup = [] /\
  course_scraper.extract_detailed_description soup = "" /\
  track_scraper.extract_skills soup = [] /\
  track_scraper.extract_detailed_description soup = "".
Proof.
  intros H.
  unfold course_scraper.extract_skills, course_scraper.extract_detailed_description,
    track_scraper.extract_skills, track_scraper.extract_detailed_description.
  rewrite !(RenderMoreFacts.find_heading_none _ _ _ H). repeat split.
Qed.

Lemma no_heading_no_section_witness :
  course_scraper.extract_skills (soup_of Samples.track_page) = [] /\
  course_scraper.extract_detailed_description (soup_of Samples.track_page) = "" /\
  track_scraper.extract_skills (soup_of Samples.track_page) = [] /\
  track_scraper.extract_detailed_description (soup_of Samples.track_page) = "".
Proof.
  apply no_heading_no_section.
  intros x Hx. simpl in Hx.
  repeat (destruct Hx as [<-|Hx]; [reflexivity|]). destruct Hx.
Defined.

(* ================================================================== *)
(** * Further properties: the lists of URLs                            *)
(* ================================================================== *)

Module InputFacts.
Import Props.

Lemma append_assoc (a b c : string) : (a ++ b) ++ c = a ++ b ++ c.
Proof. induction a; simpl; congruence. Qed.

Lemma rev_string_acc (s acc : string) :
  rev_string s acc = rev_string s "" ++ acc.
Proof.
  revert acc. induction s as [|c s IH]; intros acc; [reflexivity|].
  cbn [rev_string]. rewrite (IH (String c acc)), (IH (String c "")).
  now rewrite append_assoc.
Qed.

Lemma rev_string_app (a b : string) :
  rev_string (a ++ b) "" = rev_string b "" ++ rev_string a "".
Proof.
  induction a as [|c a IH]; cbn [append rev_string].
  - now rewrite TrackMoreFacts.append_empty_r.
  - rewrite (rev_string_acc (a ++ b)), (rev_string_acc a), IH.
    now rewrite append_assoc.
Qed.

Lemma rev_string_involutive (s : string) :
  rev_string (rev_string s "") "" = s.
Proof.
  induction s as [|c s IH]; [reflexivity|].
  cbn [rev_string].
  rewrite (rev_string_acc s (String c "")), rev_string_app, IH. reflexivity.
Qed.

Lemma lstrip_head (s : string) (c : ascii) (r : string) :
  lstrip s = String c r -> is_space c = false.
Proof.
  induction s as [|d s IH]; cbn [lstrip]; [discriminate|].
  destruct (is_space d) eqn:Hd; [exact IH|].
  intros H; inversion H; subst. exact Hd.
Qed.

Lemma lstrip_id (s : string) :
  (forall c r, s = String c r -> is_space c = false) -> lstrip s = s.
Proof.
  destruct s as [|c s]; intros H; [reflexivity|].
  cbn [lstrip]. now rewrite (H c s eq_refl).
Qed.

(** What [lstrip] removes is white space in front. *)
Lemma lstrip_split (s : string) :
  exists pre, s = pre ++ lstrip s /\ all_space pre = true.
Proof.
  induction s as [|c s (pre & Hs & Hpre)]; cbn [lstrip].
  - exists "". split; reflexivity.
  - destruct (is_space c) eqn:Hc.
    + exists (String c pre). split; [simpl; now rewrite <- Hs|].
      simpl. now rewrite Hc, Hpre.
    + exists "". split; reflexivity.
Qed.

Lemma rstrip_last (s r : string) (c : ascii) :
  rstrip s = r ++ String c "" -> is_space c = false.
Proof.
  unfold rstrip. intros H.
  apply (f_equal (fun x => rev_string x "")) in H.
  rewrite rev_string_involutive, rev_string_app in H.
  exact (lstrip_head _ H).
Qed.

(** What [rstrip] removes is at the end. *)
Lemma rstrip_split (s : string) : exists suf, s = rstrip s ++ suf.
Proof.
  unfold rstrip.
  destruct (lstrip_split (rev_string s "")) as (pre & Hs & _).
  exists (rev_string pre "").
  rewrite <- rev_string_app, <- Hs. now rewrite rev_string_involutive.
Qed.

Lemma rstrip_id (s : string) :
  (forall r c, s = r ++ String c "" -> is_space c = false) -> rstrip s = s.
Proof.
  intros H. unfold rstrip. rewrite lstrip_id; [apply rev_string_involutive|].
  intros c r Hr. apply (H (rev_string r "") c).
  rewrite <- (rev_string_involutive s), Hr.
  cbn [rev_string]. now rewrite (rev_string_acc r (String c "")).
Qed.

Lemma strip_Stripped (s : string) : Stripped (strip s).
Proof.
  unfold strip. split.
  - intros c r Hr.
    destruct (rstrip_split (lstrip s)) as (suf & Hsuf).
    rewrite Hr in Hsuf. exact (lstrip_head _ Hsuf).
  - intros r c Hr. eapply rstrip_last; exact Hr.
Qed.

Lemma Stripped_strip (s : string) : Stripped s -> strip s = s.
Proof.
  intros [Hfirst Hlast]. unfold strip.
  rewrite (lstrip_id Hfirst). now apply rstrip_id.
Qed.

Lemma strip_idempotent (s : string) : strip (strip s) = strip s.
Proof. apply Stripped_strip, strip_Stripped. Qed.

(** The URLs of items that are objects. *)
Lemma urls_of_items_present (items : list json) :
  Forall is_object items ->
  Forall (fun item => field "url" item <> None) items ->
  exists us,
    inputs.urls_of_items items = Ok us /\
    Forall2 (fun item u => field "url" item = Some u) items us.
Proof.
  induction 1 as [|item items [fields ->] _ IH]; intros Hurl.
  - exists []. split; [reflexivity|constructor].
  - inversion Hurl as [|? ? Hitem Hrest]; subst.
    destruct (IH Hrest) as (us & Hus & Hall).
    cbn [field] in Hitem.
    destruct (lookup "url" fields) as [u|] eqn:Hu; [|congruence].
    exists (u :: us). split.
    + cbn [inputs.urls_of_items track_scraper.subscript].
      rewrite Hu. cbn [bind]. now rewrite Hus.
    + constructor; [exact Hu|exact Hall].
Qed.

Lemma urls_of_items_missing (items : list json) :
  Forall is_object items ->
  Exists (fun item => field "url" item = None) items ->
  inputs.urls_of_items items = Raise KeyError.
Proof.
  induction 1 as [|item items [fields ->] Hobj IH]; intros Hex.
  - inversion Hex.
  - cbn [inputs.urls_of_items track_scraper.subscript].
    destruct (lookup "url" fields) as [u|] eqn:Hu; [|reflexivity].
    cbn [bind].
    inversion Hex as [? ? Hitem|? ? Hrest]; subst.
    + cbn [field] in Hitem. congruence.
    + now rewrite (IH Hrest).
Qed.

End InputFacts.

(** X23.  The Course script reads its URLs from the items of
    [itemListElement]: when every item is an object with a [url], the URLs
    are these values, one per item and in the order of the items; an item
    without [url] makes the reading fail with a [KeyError] (it is not
    passed over); and a catalogue without [itemListElement] gives no URL. *)
Theorem urls_of_catalogue (fields : list (string * json)) :
  (forall items,
      lookup "itemListElement" fields = Some (JArr items) ->
      Forall Props.is_object items ->
      (Forall (fun item => Props.field "url" item <> None) items ->
       exists us,
         inputs.urls (JObj fields) = Ok us /\
         Forall2 (fun item u => Props.field "url" item = Some u) items us) /\
      (Exists (fun item => Props.field "url" item = None) items ->
       inputs.urls (JObj fields) = Raise KeyError)) /\
  (lookup "itemListElement" fields = None -> inputs.urls (JObj fields) = Ok []).
Proof.
  split.
  - intros items Hl Hobj. unfold inputs.urls. cbn [get_default]. rewrite Hl.
    cbn [bind track_scraper.iterate]. split.
    + now apply InputFacts.urls_of_items_present.
    + now apply InputFacts.urls_of_items_missing.
  - intros Hl. unfold inputs.urls. cbn [get_default]. now rewrite Hl.
Qed.

Lemma urls_of_catalogue_witness :
  exists us,
    inputs.urls MoreSamples.catalogue = Ok us /\
    Forall2 (fun item u => Props.field "url" item = Some u)
            [JObj [("url", JStr "https://example.com/joins")];
             JObj [("url", JStr "https://example.com/windows")]]
            us.
Proof.
  destruct (urls_of_catalogue
              [("itemListElement",
                JArr [JObj [("url", JStr "https://example.com/joins")];
                      JObj [("url", JStr "https://example.com/windows")]])])
    as [Hitems _].
  refine (proj1 (Hitems _ eq_refl _) _).
  - constructor; [eexists; reflexivity|].
    constructor; [eexists; reflexivity|constructor].
  - constructor; [discriminate|]. constructor; [discriminate|constructor].
Defined.

(** X24.  Every URL that [read_track_urls] returns is a line of the file
    stripped of the white space around it, is not empty, and has no white
    space at either end. *)
Theorem read_track_urls_clean (lines : list string) (url : string) :
  In url (inputs.read_track_urls lines) ->
  url <> "" /\ Props.Stripped url /\
  exists line, In line lines /\ url = strip line.
Proof.
  unfold inputs.read_track_urls. intros H.
  apply in_map_iff in H. destruct H as (line & <- & Hline).
  apply filter_In in Hline. destruct Hline as [Hin Hne].
  split; [now apply RenderMoreFacts.nonempty_true|].
  split; [apply InputFacts.strip_Stripped|].
  now exists line.
Qed.

Lemma read_track_urls_clean_witness :
  "https://example.com/mysql" <> "" /\
  Props.Stripped "https://example.com/mysql" /\
  exists line, In line MoreSamples.url_file
               /\ "https://example.com/mysql" = strip line.
Proof.
  apply (read_track_urls_clean MoreSamples.url_file). left. reflexivity.
Defined.

(** X25.  Reading a file that holds the URLs that [read_track_urls]
    returned gives the same URLs again: clean lines are kept as they are,
    none is dropped. *)
Theorem read_track_urls_idempotent (lines : list string) :
  inputs.read_track_urls (inputs.read_track_urls lines)
  = inputs.read_track_urls lines.
Proof.
  unfold inputs.read_track_urls.
  induction lines as [|line lines IH]; [reflexivity|].
  cbn [filter]. destruct (nonempty (strip line)) eqn:Hne; [|exact IH].
  cbn [map filter]. rewrite InputFacts.strip_idempotent, Hne.
  cbn [map]. rewrite InputFacts.strip_idempotent. now rewrite IH.
Qed.
